(** * Geography quiz client: a model of [static/script.js]

    The script is a single page controller.  It keeps two variables
    ([currentQuestion], [isLoading]), a table of DOM elements, and reacts
    to clicks, to the settling of [fetch] requests, and to image and
    timer events.  Each handler of the script is a function on [State];
    the browser is the transition function [step], which decides which
    handler an event reaches.  Handlers run to completion (JavaScript is
    single threaded and a promise chain's callbacks run back to back), so
    one event is one transition. *)

From stdpp Require Import base option list strings numbers pretty.
From Stdlib Require Import Ascii String NArith Lia.

Local Open Scope string_scope.

(** ** JavaScript values *)

(** A property that may be absent, [null] or [undefined] is an [option];
    strings are the only values the script tests for truthiness besides
    booleans and array lengths. *)
Definition truthy (v : option string) : bool :=
  match v with
  | Some s => negb (String.eqb s "")
  | None => false
  end.

(** [textContent = v]: a missing value is written as the empty string. *)
Definition text_of (v : option string) : string := default "" v.

Definition dq : string := String "034"%char EmptyString.
Definition nl : string := String "010"%char EmptyString.
Fixpoint spaces (n : nat) : string :=
  match n with
  | O => ""
  | S k => String " "%char (spaces k)
  end.

(** [Array.prototype.join('')]. *)
Fixpoint join (l : list string) : string :=
  match l with
  | [] => ""
  | x :: r => x +:+ join r
  end.

(** ** Payloads of the three endpoints *)

Module Q.
  (** [/get_question]: a question object. *)
Record t := mk {
    question : string;
    options : list string;
    correct_answer : string;
    hint : option string;
    difficulty : string;
    image : option string
  }.
End Q.

(** What [/get_question] answers with: a question, or an object that only
    has an [error] field.  The accessors below are the property reads the
    script performs on that object. *)
Inductive Payload :=
| QuestionData (q : Q.t)
| ErrorObject (error : string).

Definition data_error (d : Payload) : option string :=
  match d with ErrorObject e => Some e | QuestionData _ => None end.
Definition data_question (d : Payload) : option string :=
  match d with QuestionData q => Some (Q.question q) | ErrorObject _ => None end.
Definition data_image (d : Payload) : option string :=
  match d with QuestionData q => Q.image q | ErrorObject _ => None end.
Definition data_options (d : Payload) : option (list string) :=
  match d with QuestionData q => Some (Q.options q) | ErrorObject _ => None end.
Definition data_hint (d : Payload) : option string :=
  match d with QuestionData q => Q.hint q | ErrorObject _ => None end.

Module A.
  (** [/check_answer]. *)
Record t := mk {
    is_correct : bool;
    correct_answer : string;
    score : N;
    total_questions : N
  }.
End A.

Module H.
  (** One entry of [/get_history]. *)
Record entry := mk_entry {
    question : string;
    user_answer : string;
    correct_answer : string;
    difficulty : string;
    timestamp : string;
    is_correct : bool
  }.
Record t := mk {
    history : list entry;
    score : N;
    total_questions : N
  }.
End H.

(** How a request settles: the promise rejects, the response is not
    [ok], or the body parses to a payload. *)
Inductive Reply (A : Type) :=
| Rejected
| NotOk
| Json (data : A).
Arguments Rejected {A}.
Arguments NotOk {A}.
Arguments Json {A} data.

Inductive Request :=
| GetQuestion
| CheckAnswer (selectedOption : string)
| GetHistory.

Inductive Response :=
| QuestionReply (r : Reply Payload)
| AnswerReply (r : Reply A.t)
| HistoryReply (r : Reply H.t).

(** ** The document *)

(** The keys of the script's [elements] object. *)
Inductive ElementId :=
| startButton | nextButton | hintButton
| questionContainer | resultContainer | startContainer
| questionText | optionsContainer | hintText | resultText
| scoreDisplay | totalQuestionsDisplay | historyList
| imageContainer | difficultyIndicator.

Definition element_index (e : ElementId) : nat :=
  match e with
  | startButton => 0 | nextButton => 1 | hintButton => 2
  | questionContainer => 3 | resultContainer => 4 | startContainer => 5
  | questionText => 6 | optionsContainer => 7 | hintText => 8
  | resultText => 9 | scoreDisplay => 10 | totalQuestionsDisplay => 11
  | historyList => 12 | imageContainer => 13 | difficultyIndicator => 14
  end.

Definition same_element (a b : ElementId) : bool :=
  Nat.eqb (element_index a) (element_index b).

(** The attributes of an element that the script reads or writes. *)
Record Element := mkElement {
  textContent : string;
  classList : list string;
  disabled : bool
}.

Definition Elements := ElementId -> Element.

Definition has_class (c : string) (e : Element) : bool :=
  existsb (String.eqb c) (classList e).

(** [classList.add] and [classList.remove]: a class list is a set. *)
Definition add_class (c : string) (e : Element) : Element :=
  if has_class c e then e
  else mkElement (textContent e) (classList e ++ [c]) (disabled e).
Definition remove_class (c : string) (e : Element) : Element :=
  mkElement (textContent e)
            (List.filter (fun x => negb (String.eqb c x)) (classList e))
            (disabled e).
Definition with_text (t : string) (e : Element) : Element :=
  mkElement t (classList e) (disabled e).
Definition with_disabled (b : bool) (e : Element) : Element :=
  mkElement (textContent e) (classList e) b.

(** The children of the image container. *)
Inductive Node :=
| ImageLoading (id : nat)     (* the spinner [div.image-loading] of load [id] *)
| ImagePlaceholder            (* [div.image-placeholder] *)
| QuestionImage (id : nat).   (* the [img.question-image] of load [id] *)

Definition same_node (a b : Node) : bool :=
  match a, b with
  | ImageLoading i, ImageLoading j => Nat.eqb i j
  | ImagePlaceholder, ImagePlaceholder => true
  | QuestionImage i, QuestionImage j => Nat.eqb i j
  | _, _ => false
  end.

Definition contains (l : list Node) (n : Node) : bool := existsb (same_node n) l.
Definition removeChild (n : Node) (l : list Node) : list Node :=
  List.filter (fun x => negb (same_node n x)) l.

(** An [Image] object created by [displayImage], with the timer that
    guards it.  [timer] is the time at which the pending timeout is due,
    [None] once it has fired or was cleared; [settled] says that the load
    or error event of the request has been delivered. *)
Record ImageObj := mkImage {
  src : string;
  className : string;
  settled : bool;
  timer : option N
}.

(** ** The state of the page *)

Record State := mkState {
  currentQuestion : option Payload;
  isLoading : bool;
  elements : Elements;
  option_buttons : list Element;   (* children of [optionsContainer] *)
  image_nodes : list Node;         (* children of [imageContainer] *)
  history_html : string;           (* [historyList.innerHTML] *)
  images : list ImageObj;          (* image objects, by creation order *)
  inflight : list Request;         (* requests that have not settled *)
  now : N                          (* milliseconds since the page loaded *)
}.

Definition set_currentQuestion (v : option Payload) (s : State) : State :=
  mkState v (isLoading s) (elements s) (option_buttons s) (image_nodes s)
          (history_html s) (images s) (inflight s) (now s).
Definition set_isLoading (v : bool) (s : State) : State :=
  mkState (currentQuestion s) v (elements s) (option_buttons s) (image_nodes s)
          (history_html s) (images s) (inflight s) (now s).
Definition set_elements (v : Elements) (s : State) : State :=
  mkState (currentQuestion s) (isLoading s) v (option_buttons s) (image_nodes s)
          (history_html s) (images s) (inflight s) (now s).
Definition set_option_buttons (v : list Element) (s : State) : State :=
  mkState (currentQuestion s) (isLoading s) (elements s) v (image_nodes s)
          (history_html s) (images s) (inflight s) (now s).
Definition set_image_nodes (v : list Node) (s : State) : State :=
  mkState (currentQuestion s) (isLoading s) (elements s) (option_buttons s) v
          (history_html s) (images s) (inflight s) (now s).
Definition set_history_html (v : string) (s : State) : State :=
  mkState (currentQuestion s) (isLoading s) (elements s) (option_buttons s)
          (image_nodes s) v (images s) (inflight s) (now s).
Definition set_images (v : list ImageObj) (s : State) : State :=
  mkState (currentQuestion s) (isLoading s) (elements s) (option_buttons s)
          (image_nodes s) (history_html s) v (inflight s) (now s).
Definition set_inflight (v : list Request) (s : State) : State :=
  mkState (currentQuestion s) (isLoading s) (elements s) (option_buttons s)
          (image_nodes s) (history_html s) (images s) v (now s).
Definition set_now (v : N) (s : State) : State :=
  mkState (currentQuestion s) (isLoading s) (elements s) (option_buttons s)
          (image_nodes s) (history_html s) (images s) (inflight s) v.

(** Statements of a handler are state transformers; [f >>> g] runs [f]
    and then [g]. *)
Definition seq (f g : State -> State) : State -> State := fun s => g (f s).
Notation "f >>> g" := (seq f g) (at level 61, left associativity).

(** [elements.id.attribute = ...] *)
Definition update (id : ElementId) (f : Element -> Element) : State -> State :=
  fun s => set_elements
             (fun j => if same_element j id then f (elements s j) else elements s j) s.

Definition set_text (id : ElementId) (t : string) := update id (with_text t).
Definition set_disabled (id : ElementId) (b : bool) := update id (with_disabled b).
Definition classList_add (id : ElementId) (c : string) := update id (add_class c).
Definition classList_remove (id : ElementId) (c : string) := update id (remove_class c).

Definition is_hidden (id : ElementId) (s : State) : bool :=
  has_class "hidden" (elements s id).
Definition is_disabled (id : ElementId) (s : State) : bool :=
  disabled (elements s id).
Definition text (id : ElementId) (s : State) : string :=
  textContent (elements s id).

(** [fetch(...)]: the request is in flight until the browser settles it. *)
Definition fetch (r : Request) : State -> State :=
  fun s => set_inflight (inflight s ++ [r]) s.

(** A callback of a promise chain either returns or throws; either way
    the effects it had on the page stay. *)
Inductive Completion :=
| Normal (s : State)
| Throw (s : State).

Definition catch (c : Completion) (handler : State -> State) : State :=
  match c with
  | Normal s => s
  | Throw s => handler s
  end.

(** ** The handlers of [script.js] *)

Definition option_button (option : string) : Element :=
  mkElement option ["option-button"] false.

Definition map_options (f : Element -> Element) : State -> State :=
  fun s => set_option_buttons (List.map f (option_buttons s)) s.

Definition showImagePlaceholder : State -> State :=
  set_image_nodes [ImagePlaceholder].

Definition disableOptions : State -> State :=
  map_options (with_disabled true).

Definition disableButtons : State -> State :=
  set_disabled startButton true >>>
  set_disabled hintButton true >>>
  set_disabled nextButton true.

(** The last line is the source's: [enableButtons] leaves the next
    button disabled ("until an answer is selected"). *)
Definition enableButtons : State -> State :=
  set_disabled startButton false >>>
  set_disabled hintButton false >>>
  set_disabled nextButton true.

Definition resetHint : State -> State :=
  classList_add hintText "hidden" >>>
  set_disabled hintButton false.

Definition error_message : string := "An error occurred. Please try again.".

Definition showErrorState : State -> State :=
  set_text resultText error_message >>>
  classList_remove resultContainer "hidden" >>>
  set_text nextButton "Try Again" >>>
  enableButtons.

Definition resetUIState : State -> State :=
  classList_add questionContainer "hidden" >>>
  classList_add resultContainer "hidden" >>>
  classList_add hintText "hidden" >>>
  set_disabled hintButton false >>>
  set_option_buttons [] >>>
  set_text questionText "" >>>
  set_text resultText "" >>>
  showImagePlaceholder.

Definition showLoadingState : State -> State :=
  set_text questionText "Loading question..." >>>
  classList_remove questionContainer "hidden" >>>
  disableButtons >>>
  showImagePlaceholder.

(** Defined by the script and called from nowhere. *)
Definition showAnswerCheckingState : State -> State :=
  disableButtons >>>
  set_text resultText "Checking answer..." >>>
  classList_remove resultContainer "hidden".

(** The delay passed to [setTimeout] in [displayImage]. *)
Definition image_timeout : N := 5000.

(** [displayImage]: the second pair of [onload]/[onerror] assignments
    replaces the first before any event can be delivered, so the image
    carries the handlers [img_onload] and [img_onerror] below. *)
Definition displayImage (imageUrl : option string) : State -> State :=
  fun s =>
    let s := set_image_nodes [] s in
    if negb (truthy imageUrl) then showImagePlaceholder s
    else
      let id := List.length (images s) in
      let s := set_image_nodes (image_nodes s ++ [ImageLoading id]) s in
      set_images
        (images s ++ [mkImage (text_of imageUrl) "" false (Some (now s + image_timeout)%N)]) s.

Definition alter_image (id : nat) (f : ImageObj -> ImageObj) : State -> State :=
  fun s => set_images (alter f id (images s)) s.

Definition clearTimeout (id : nat) : State -> State :=
  alter_image id (fun im => mkImage (src im) (className im) (settled im) None).

Definition remove_loader (id : nat) : State -> State :=
  fun s =>
    if contains (image_nodes s) (ImageLoading id)
    then set_image_nodes (removeChild (ImageLoading id) (image_nodes s)) s
    else s.

Definition img_onload (id : nat) : State -> State :=
  clearTimeout id >>>
  remove_loader id >>>
  alter_image id (fun im => mkImage (src im) "question-image" (settled im) (timer im)) >>>
  (fun s => set_image_nodes
              (removeChild (QuestionImage id) (image_nodes s) ++ [QuestionImage id]) s).

Definition img_onerror (id : nat) : State -> State :=
  clearTimeout id >>>
  remove_loader id >>>
  showImagePlaceholder.

(** The callback given to [setTimeout]. *)
Definition image_timed_out (id : nat) : State -> State :=
  fun s =>
    if contains (image_nodes s) (ImageLoading id)
    then (set_image_nodes (removeChild (ImageLoading id) (image_nodes s)) >>>
          showImagePlaceholder >>>
          alter_image id (fun im => mkImage "" (className im) (settled im) (timer im))) s
    else s.

(** [createOptionButtons]: [options.forEach] throws when the payload has
    no [options]. *)
Definition createOptionButtons (options : option (list string)) (s : State) : Completion :=
  let s := set_option_buttons [] s in
  match options with
  | None => Throw s
  | Some l => Normal (set_option_buttons (List.map option_button l) s)
  end.

Definition displayQuestion (data : Payload) (s : State) : Completion :=
  let s := set_text questionText (text_of (data_question data)) s in
  let s := if truthy (data_image data)
           then displayImage (data_image data) s
           else showImagePlaceholder s in
  match createOptionButtons (data_options data) s with
  | Throw s => Throw s
  | Normal s => Normal (resetHint s)
  end.

(** The local fallback questions and the function that would serve one.
    [Math.random] is the argument [r], already scaled to an index. *)
Definition localFallbackQuestions : list Q.t :=
  [ Q.mk "Which river is the longest in the world?"
         ["Amazon"; "Nile"; "Yangtze"; "Mississippi"] "Nile"
         (Some "This river flows through northeastern Africa.") "medium" None;
    Q.mk "What is the capital of Japan?"
         ["Kyoto"; "Osaka"; "Tokyo"; "Hiroshima"] "Tokyo"
         (Some "This city hosted the 2020 Summer Olympics.") "easy" None;
    Q.mk "Which country is known as the 'Land of the Rising Sun'?"
         ["China"; "South Korea"; "Japan"; "Thailand"] "Japan"
         (Some "This country's flag features a red circle on a white background.")
         "easy" None ].

Definition getLocalFallbackQuestion (r : nat) (s : State) : Completion :=
  match localFallbackQuestions !! r with
  | Some fallback =>
      displayQuestion (QuestionData fallback)
                      (set_currentQuestion (Some (QuestionData fallback)) s)
  | None => Throw (set_currentQuestion None s)
  end.

(** [loadNextQuestion], up to the [fetch]. *)
Definition loadNextQuestion (s : State) : State :=
  if isLoading s then s
  else (set_isLoading true >>> resetUIState >>> showLoadingState >>>
        fetch GetQuestion) s.

Definition startQuiz (s : State) : State :=
  if isLoading s then s else loadNextQuestion s.

(** The two [then] callbacks of [loadNextQuestion]. *)
Definition question_received (r : Reply Payload) (s : State) : Completion :=
  match r with
  | Rejected | NotOk => Throw s
  | Json data =>
      if truthy (data_error data) then Throw s
      else
        match displayQuestion data (set_currentQuestion (Some data) s) with
        | Throw s => Throw s
        | Normal s =>
            Normal ((classList_add startContainer "hidden" >>>
                     classList_remove questionContainer "hidden" >>>
                     classList_add resultContainer "hidden" >>>
                     set_disabled nextButton true) s)
        end
  end.

(** The whole chain [.then.then.catch.finally] of [loadNextQuestion]. *)
Definition question_settled (r : Reply Payload) : State -> State :=
  fun s => (set_isLoading false >>> enableButtons)
             (catch (question_received r s) showErrorState).

Definition loadHistory : State -> State := fetch GetHistory.

(** ** Numbers on display *)

(** The score and the totals are JSON numbers, and the script writes
    them into [textContent] as they are, so that the page shows what
    [String(x)] gives.  The payloads carry them as the integers the
    server sends.  [JSON.parse] reads an integer as the nearest double,
    ties to even ([None] stands for [Infinity]); integers below [2^53]
    are read exactly. *)
Definition double_of_integer (n : N) : option N :=
  let bits := N.size n in
  if (bits <=? 53)%N then Some n
  else
    let e := (bits - 53)%N in
    let m := N.shiftr n e in
    let r := (n - N.shiftl m e)%N in
    let half := N.shiftl 1 (e - 1) in
    let m' := if (half <? r)%N || ((r =? half)%N && N.odd m) then (m + 1)%N else m in
    let x := N.shiftl m' e in
    if (2 ^ 1024 <=? x)%N then None else Some x.

Definition decimal_digits (n : N) : N := N.of_nat (String.length (pretty n)).

(** The integer [v] is read as the double [x]. *)
Definition reads_as (x v : N) : bool :=
  match double_of_integer v with
  | Some y => (y =? x)%N
  | None => false
  end.

(** [Number::toString]: the digits [s] and the power of ten [e] with
    [s * 10^e] read as [x], for the least number of digits; of two such
    [s] the one nearer to [x], and the even one when they are as near.
    [shortest_at x k] looks among the numbers of [k] digits. *)
Definition shortest_at (x k : N) : option (N * N) :=
  let nd := decimal_digits x in
  if (nd <? k)%N then None
  else
    let p := (10 ^ (nd - k))%N in
    let lo := (x / p)%N in
    let below := (lo * p)%N in
    let above := ((lo + 1) * p)%N in
    match reads_as x below, reads_as x above with
    | true, true =>
        if (x - below <? above - x)%N then Some (lo, (nd - k)%N)
        else if (above - x <? x - below)%N then Some ((lo + 1)%N, (nd - k)%N)
        else if N.even lo then Some (lo, (nd - k)%N)
        else Some ((lo + 1)%N, (nd - k)%N)
    | true, false => Some (lo, (nd - k)%N)
    | false, true => Some ((lo + 1)%N, (nd - k)%N)
    | false, false => None
    end.

Fixpoint shortest_from (x k : N) (fuel : nat) : option (N * N) :=
  match fuel with
  | O => None
  | S fuel' =>
      match shortest_at x k with
      | Some r => Some r
      | None => shortest_from x (k + 1)%N fuel'
      end
  end.

Fixpoint strip_zeros (s e : N) (fuel : nat) : N * N :=
  match fuel with
  | O => (s, e)
  | S fuel' =>
      if (0 <? s)%N && (s mod 10 =? 0)%N
      then strip_zeros (s / 10)%N (e + 1)%N fuel'
      else (s, e)
  end.

(** [String(x)] for the number read from the integer [n]: all its digits
    when the decimal point comes after at most 21 digits, and otherwise
    the digits, a point after the first, and the exponent. *)
Definition number_text (n : N) : string :=
  if (n <? 2 ^ 53)%N then pretty n
  else
    match double_of_integer n with
    | None => "Infinity"
    | Some x =>
        match shortest_from x 1 17 with
        | None => pretty x
        | Some (s0, e0) =>
            let '(s, e) := strip_zeros s0 e0 17 in
            let point := (decimal_digits s + e)%N in
            if (point <=? 21)%N then pretty (s * 10 ^ e)%N
            else
              match pretty s with
              | String c rest =>
                  String c (if String.eqb rest "" then "" else "." +:+ rest)
                    +:+ "e+" +:+ pretty (point - 1)%N
              | EmptyString => ""
              end
        end
    end.

Definition updateScoreDisplay (data : A.t) : State -> State :=
  set_text scoreDisplay (number_text (A.score data)) >>>
  set_text totalQuestionsDisplay (number_text (A.total_questions data)).

Definition updateScoreDisplays (data : H.t) : State -> State :=
  set_text scoreDisplay (number_text (H.score data)) >>>
  set_text totalQuestionsDisplay (number_text (H.total_questions data)).

Definition resultMessage (data : A.t) : string :=
  if A.is_correct data
  then "✅ Correct! The answer is " +:+ A.correct_answer data +:+ "."
  else "❌ Incorrect. The correct answer is " +:+ A.correct_answer data +:+ ".".

Definition showResultFeedback (data : A.t) (selectedOption : string) : State -> State :=
  set_text resultText (resultMessage data) >>>
  classList_remove resultContainer "hidden" >>>
  map_options (fun button =>
    with_disabled true
      (if String.eqb (textContent button) (A.correct_answer data)
       then add_class "correct-option" button
       else if String.eqb (textContent button) selectedOption && negb (A.is_correct data)
            then add_class "incorrect-option" button
            else button)).

Definition highlightAnswers (correctAnswer selectedOption : string) : State -> State :=
  map_options (fun button =>
    if String.eqb (textContent button) correctAnswer
    then add_class "correct-option" button
    else if String.eqb (textContent button) selectedOption
         then add_class "incorrect-option" button
         else button).

(** [selectAnswer], up to the [fetch]. *)
Definition selectAnswer (selectedOption : string) (s : State) : State :=
  if isLoading s then s
  else (disableOptions >>> fetch (CheckAnswer selectedOption)) s.

(** The chain [.then.then.catch] of [selectAnswer]. *)
Definition answer_settled (selectedOption : string) (r : Reply A.t) : State -> State :=
  match r with
  | Rejected | NotOk => showErrorState
  | Json data =>
      updateScoreDisplay data >>>
      showResultFeedback data selectedOption >>>
      highlightAnswers (A.correct_answer data) selectedOption >>>
      loadHistory >>>
      classList_remove questionContainer "hidden" >>>
      disableOptions >>>
      set_disabled hintButton true >>>
      set_disabled nextButton false
  end.

Definition showHint (s : State) : State :=
  if negb (truthy (currentQuestion s ≫= data_hint)) then s
  else (set_text hintText (text_of (currentQuestion s ≫= data_hint)) >>>
        classList_remove hintText "hidden" >>>
        set_disabled hintButton true) s.

(** ** History rendering and the browser *)

(** What the page gets from its surroundings and the script does not
    define: the locale's rendering of a timestamp
    ([new Date(t).toLocaleTimeString()]), and whether a control inside a
    container of class [hidden] is out of the user's reach.  The second
    is decided by the stylesheet and the markup, which are not part of
    the script; it matters for the start button, which sits in the start
    container. *)
Record Browser := mkBrowser {
  toLocaleTimeString : string -> string;
  hidden_unclickable : bool
}.

Definition div_open (cls : string) : string :=
  "<div class=" +:+ dq +:+ cls +:+ dq +:+ ">".
Definition span_open (cls : string) : string :=
  "<span class=" +:+ dq +:+ cls +:+ dq +:+ ">".

Definition no_history : string :=
  div_open "no-history" +:+ "No quiz history yet</div>".
Definition history_failed : string :=
  div_open "error-message" +:+ "Failed to load history</div>".

Section Page.
Variable browser : Browser.

  (** The template literal of [renderHistory], line by line. *)
Definition history_item (item : H.entry) : string :=
    nl +:+ spaces 16 +:+
      div_open ("history-item " +:+ (if H.is_correct item then "correct" else "incorrect")) +:+
    nl +:+ spaces 20 +:+
      div_open "history-question" +:+ H.question item +:+ "</div>" +:+
    nl +:+ spaces 20 +:+ div_open "history-details" +:+
    nl +:+ spaces 24 +:+
      span_open "user-answer" +:+ "You: " +:+ H.user_answer item +:+ "</span>" +:+
    nl +:+ spaces 24 +:+
      span_open "correct-answer" +:+ "Correct: " +:+ H.correct_answer item +:+ "</span>" +:+
    nl +:+ spaces 24 +:+
      span_open ("difficulty-badge " +:+ H.difficulty item) +:+ H.difficulty item +:+ "</span>" +:+
    nl +:+ spaces 20 +:+ "</div>" +:+
    nl +:+ spaces 20 +:+
      div_open "history-time" +:+ toLocaleTimeString browser (H.timestamp item) +:+ "</div>" +:+
    nl +:+ spaces 16 +:+ "</div>" +:+
    nl +:+ spaces 12.

  (** [data.history.slice().reverse().map(...)]: the rendered entries. *)
Definition history_items (data : H.t) : list string :=
    history_item <$> reverse (H.history data).

Definition renderHistory (data : H.t) : State -> State :=
    set_history_html
      (if Nat.eqb (List.length (H.history data)) 0
       then no_history
       else join (history_items data)).

  (** The chain [.then.then.catch] of [loadHistory]. *)
Definition history_settled (r : Reply H.t) : State -> State :=
    match r with
    | Rejected | NotOk => set_history_html history_failed
    | Json data => renderHistory data >>> updateScoreDisplays data
    end.

  (** *** Events *)

Inductive Control :=
  | StartControl
  | NextControl
  | HintControl
  | OptionControl (i : nat).

Inductive Event :=
  | Click (c : Control)             (* the user clicks a control *)
  | Settle (i : nat) (r : Response) (* the [i]-th request in flight settles *)
  | ImageLoad (id : nat)            (* the image of load [id] arrives *)
  | ImageError (id : nat)           (* the image of load [id] fails *)
  | TimerDue (id : nat)             (* the timeout of load [id] fires *)
  | Elapse (ms : N).                (* time passes *)

  (** A disabled button receives no click; neither does the start button
      while its container is hidden, when the browser says so. *)
Definition clickable (c : Control) (s : State) : bool :=
    match c with
    | StartControl =>
        negb (is_disabled startButton s) &&
        negb (hidden_unclickable browser && is_hidden startContainer s)
    | NextControl => negb (is_disabled nextButton s)
    | HintControl => negb (is_disabled hintButton s)
    | OptionControl i =>
        match option_buttons s !! i with
        | Some button => negb (disabled button)
        | None => false
        end
    end.

  (** The listeners registered by the script. *)
Definition on_click (c : Control) (s : State) : State :=
    match c with
    | StartControl => startQuiz s
    | NextControl => loadNextQuestion s
    | HintControl => showHint s
    | OptionControl i =>
        match option_buttons s !! i with
        | Some button => selectAnswer (textContent button) s
        | None => s
        end
    end.

Definition mark_settled (id : nat) : State -> State :=
    alter_image id (fun im => mkImage (src im) (className im) true (timer im)).

Definition step (s : State) (e : Event) : option State :=
    match e with
    | Click c => if clickable c s then Some (on_click c s) else None
    | Settle i r =>
        let s' := set_inflight (delete i (inflight s)) s in
        match inflight s !! i, r with
        | Some GetQuestion, QuestionReply r => Some (question_settled r s')
        | Some (CheckAnswer selectedOption), AnswerReply r =>
            Some (answer_settled selectedOption r s')
        | Some GetHistory, HistoryReply r => Some (history_settled r s')
        | _, _ => None
        end
    | ImageLoad id =>
        match images s !! id with
        | Some im =>
            if negb (settled im) && negb (String.eqb (src im) "")
            then Some ((mark_settled id >>> img_onload id) s)
            else None
        | None => None
        end
    | ImageError id =>
        match images s !! id with
        | Some im =>
            if negb (settled im)
            then Some ((mark_settled id >>> img_onerror id) s)
            else None
        | None => None
        end
    | TimerDue id =>
        match images s !! id with
        | Some im =>
            match timer im with
            | Some due =>
                if (due <=? now s)%N
                then Some ((clearTimeout id >>> image_timed_out id) s)
                else None
            | None => None
            end
        | None => None
        end
    | Elapse ms => Some (set_now (now s + ms)%N s)
    end.

Fixpoint run (s : State) (evs : list Event) : option State :=
    match evs with
    | [] => Some s
    | e :: rest =>
        match step s e with
        | Some s' => run s' rest
        | None => None
        end
    end.

  (** The page once the [DOMContentLoaded] listener has run: the
      variables as declared, the elements [els] as served, and the first
      [loadHistory()] under way. *)
Definition page_loaded (els : Elements) : State :=
    loadHistory (mkState None false els [] [] "" [] [] 0).

Definition reachable (s : State) : Prop :=
    exists els evs, run (page_loaded els) evs = Some s.

(** *** Observations on runs *)

(** Requests of each kind that have not settled. *)
Definition is_question_fetch (r : Request) : bool :=
  match r with GetQuestion => true | _ => false end.
Definition is_answer_submission (r : Request) : bool :=
  match r with CheckAnswer _ => true | _ => false end.
Definition questions_in_flight (s : State) : nat :=
  List.length (List.filter is_question_fetch (inflight s)).
Definition answers_in_flight (s : State) : nat :=
  List.length (List.filter is_answer_submission (inflight s)).

Definition all_options_disabled (s : State) : bool :=
  forallb disabled (option_buttons s).

(** A question fetch fails when the promise rejects, the response is
    not [ok], or the payload carries a truthy [error]. *)
Definition fetch_failed (r : Reply Payload) : bool :=
  match r with
  | Rejected | NotOk => true
  | Json data => truthy (data_error data)
  end.

Definition submission_failed (r : Reply A.t) : bool :=
  match r with
  | Rejected | NotOk => true
  | Json _ => false
  end.

(** The option buttons that carry the marking [correct-option]. *)
Definition marked_correct (s : State) : list Element :=
  List.filter (has_class "correct-option") (option_buttons s).

(** [sub] occurs in [s]. *)
Definition occurs (sub s : string) : Prop :=
  exists before after, s = before +:+ sub +:+ after.

(** The question payloads the server delivers in a sequence of events. *)
Fixpoint served (evs : list Event) : list Payload :=
  match evs with
  | [] => []
  | Settle _ (QuestionReply (Json data)) :: rest => data :: served rest
  | _ :: rest => served rest
  end.

(** The number of hint clicks of a run that reveal a hint: clicks
    delivered while the current question has one. *)
Fixpoint hint_reveals (s : State) (evs : list Event) : nat :=
  match evs with
  | [] => 0
  | e :: rest =>
      match step s e with
      | Some s' =>
          (match e with
           | Click HintControl =>
               if truthy (currentQuestion s ≫= data_hint) then 1 else 0
           | _ => 0
           end) + hint_reveals s' rest
      | None => 0
      end
  end.

(** The events after which the hint button is enabled again: a question
    fetch settling (the [finally] of [loadNextQuestion]) and an answer
    submission failing ([showErrorState]). *)
Definition reenables_hint (e : Event) : bool :=
  match e with
  | Settle _ (QuestionReply _) => true
  | Settle _ (AnswerReply r) => submission_failed r
  | _ => false
  end.

(** The number of transitions of a run at which the next button goes
    from disabled to enabled. *)
Fixpoint next_enablings (s : State) (evs : list Event) : nat :=
  match evs with
  | [] => 0
  | e :: rest =>
      match step s e with
      | Some s' =>
          (if is_disabled nextButton s && negb (is_disabled nextButton s')
           then 1 else 0) + next_enablings s' rest
      | None => 0
      end
  end.

End Page.

(** *** Sample inputs *)

(** A served page on which nothing is hidden or disabled yet. *)
Definition blank_page : Elements := fun _ => mkElement "" [] false.

Definition sample_browser : Browser := mkBrowser (fun t => t) true.

(** The second local fallback question, as a server may serve it. *)
Definition tokyo_question : Q.t :=
  Q.mk "What is the capital of Japan?"
       ["Kyoto"; "Osaka"; "Tokyo"; "Hiroshima"] "Tokyo"
       (Some "This city hosted the 2020 Summer Olympics.") "easy" None.

(** [after browser s evs P]: the run of [evs] from [s] is accepted and
    ends in a state satisfying [P]. *)
Definition after (browser : Browser) (s : State) (evs : list Event)
    (P : State -> Prop) : Prop :=
  match run browser s evs with
  | Some s' => P s'
  | None => False
  end.

(** [accepted browser s evs]: every event of [evs] can be delivered, one
    after the other, starting from [s]. *)
Definition accepted (browser : Browser) (s : State) (evs : list Event) : bool :=
  match run browser s evs with
  | Some _ => true
  | None => false
  end.

(** What an option button shows: its text and whether it carries the
    markings [correct-option] and [incorrect-option]. *)
Definition marking (button : Element) : string * bool * bool :=
  (textContent button,
   has_class "correct-option" button,
   has_class "incorrect-option" button).

(** The option buttons once a submission has succeeded, in terms of
    those that were there when it settled. *)
Definition feedback (data : A.t) (selectedOption : string) (button : Element) : Element :=
  let correct := String.eqb (textContent button) (A.correct_answer data) in
  let chosen := String.eqb (textContent button) selectedOption in
  let b1 := with_disabled true
              (if correct then add_class "correct-option" button
               else if chosen && negb (A.is_correct data)
                    then add_class "incorrect-option" button
                    else button) in
  let b2 := if correct then add_class "correct-option" b1
            else if chosen then add_class "incorrect-option" b1
                 else b1 in
  with_disabled true b2.

(** One question cycle from an idle page: the next button is clicked, the
    question [q] arrives, the [k]-th option is picked, and the
    submission settles with [r].  Each request is the last one put in
    flight when it settles. *)
Definition question_cycle (s : State) (q : Q.t) (k : nat) (r : Reply A.t) : list Event :=
  let n := List.length (inflight s) in
  [Click NextControl;
   Settle n (QuestionReply (Json (QuestionData q)));
   Click (OptionControl k);
   Settle n (AnswerReply r)].

(** The states a question cycle from [s] passes through: the question
    has arrived; option [o] has been picked. *)
Definition asked (s : State) (q : Q.t) : State :=
  question_settled (Json (QuestionData q))
                   (set_inflight (inflight s) (loadNextQuestion s)).
Definition submitted (s : State) (q : Q.t) (o : string) : State :=
  selectAnswer o (asked s q).

(** A question with a picture. *)
Definition pictured_question : Q.t :=
  Q.mk "Which city is this?" ["Nairobi"; "Lagos"] "Nairobi" None "hard"
       (Some "/static/images/nairobi.jpg").

(** The image objects [l'] continue [l]: every image of [l] is still
    there, with the source it had or with its source cleared. *)
Definition sources_kept (l l' : list ImageObj) : Prop :=
  forall id im,
    l !! id = Some im ->
    exists im', l' !! id = Some im' /\ (src im' = src im \/ src im' = "").

(** The page five seconds after [pictured_question] arrived on a fresh
    page, its image still loading. *)
Definition picture_pending : State :=
  set_now 5000
    (question_settled (Json (QuestionData pictured_question))
       (loadNextQuestion (page_loaded blank_page))).

(** What holds of every page the user can reach when hidden controls are
    out of reach: at most one question fetch or answer submission is in
    flight; the busy flag is set exactly while a question fetch is in
    flight; while a submission is in flight, or while some option can
    still be picked, the next button is disabled and the start container
    hidden; and while a submission is in flight every option is
    disabled. *)
Definition one_at_a_time (s : State) : Prop :=
  questions_in_flight s + answers_in_flight s <= 1 /\
  (isLoading s = true <-> questions_in_flight s = 1) /\
  (1 <= answers_in_flight s \/ all_options_disabled s = false ->
   is_disabled nextButton s = true /\ is_hidden startContainer s = true) /\
  (1 <= answers_in_flight s -> all_options_disabled s = true).

(** The events that display a question: a question fetch settling with
    a question payload. *)
Definition brings_question (e : Event) : bool :=
  match e with
  | Settle _ (QuestionReply (Json (QuestionData _))) => true
  | _ => false
  end.

(** A page on which no request is in flight and no control can start
    one: the next button is disabled, the start container hidden and
    every option disabled. *)
Definition dead_end (s : State) : Prop :=
  questions_in_flight s = 0 /\
  answers_in_flight s = 0 /\
  is_disabled nextButton s = true /\
  is_hidden startContainer s = true /\
  all_options_disabled s = true.

(** An image whose load is over for the page: its load or error event
    has been delivered and its timer is no longer pending. *)
Definition retired (im : ImageObj) : Prop :=
  settled im = true /\ timer im = None.

Definition retired_kept (l l' : list ImageObj) : Prop :=
  forall id im,
    l !! id = Some im -> retired im ->
    exists im', l' !! id = Some im' /\ retired im'.
(** * Properties *)

(** ** Class lists *)

#[local] Arguments has_class : simpl never.
#[local] Arguments add_class : simpl never.
#[local] Arguments remove_class : simpl never.

Lemma has_class_add (c : string) (e : Element) :
  has_class c (add_class c e) = true.
Proof.
  unfold add_class. destruct (has_class c e) eqn:E; [exact E|].
  unfold has_class; cbn [classList]. rewrite existsb_app; cbn [existsb].
  rewrite String.eqb_refl. now rewrite !orb_true_r.
Qed.

Lemma has_class_add_other (c d : string) (e : Element) :
  String.eqb c d = false -> has_class c (add_class d e) = has_class c e.
Proof.
  intros Hcd. unfold add_class. destruct (has_class d e); [reflexivity|].
  unfold has_class; cbn [classList]. rewrite existsb_app; cbn [existsb].
  rewrite Hcd. now rewrite !orb_false_r.
Qed.

Lemma has_class_remove (c : string) (e : Element) :
  has_class c (remove_class c e) = false.
Proof.
  unfold has_class, remove_class; cbn [classList].
  induction (classList e) as [|x l IH]; [reflexivity|].
  cbn [List.filter]. destruct (String.eqb c x) eqn:E; cbn [negb existsb]; [exact IH|].
  now rewrite E, IH.
Qed.

Lemma has_class_with_disabled (c : string) (b : bool) (e : Element) :
  has_class c (with_disabled b e) = has_class c e.
Proof. reflexivity. Qed.


(** ** Image events leave the rest of the page alone *)

Lemma remove_loader_frame (id : nat) (s : State) :
  elements (remove_loader id s) = elements s /\
  option_buttons (remove_loader id s) = option_buttons s /\
  inflight (remove_loader id s) = inflight s /\
  isLoading (remove_loader id s) = isLoading s /\
  currentQuestion (remove_loader id s) = currentQuestion s /\
  images (remove_loader id s) = images s.
Proof. unfold remove_loader. destruct (contains _ _); repeat split. Qed.

Lemma img_onload_frame (id : nat) (s : State) :
  elements (img_onload id s) = elements s /\
  option_buttons (img_onload id s) = option_buttons s /\
  inflight (img_onload id s) = inflight s /\
  isLoading (img_onload id s) = isLoading s /\
  currentQuestion (img_onload id s) = currentQuestion s.
Proof.
  unfold img_onload, seq. cbn.
  destruct (remove_loader_frame id (clearTimeout id s)) as (-> & -> & -> & -> & -> & _).
  repeat split.
Qed.

Lemma img_onerror_frame (id : nat) (s : State) :
  elements (img_onerror id s) = elements s /\
  option_buttons (img_onerror id s) = option_buttons s /\
  inflight (img_onerror id s) = inflight s /\
  isLoading (img_onerror id s) = isLoading s /\
  currentQuestion (img_onerror id s) = currentQuestion s.
Proof.
  unfold img_onerror, seq. cbn.
  destruct (remove_loader_frame id (clearTimeout id s)) as (-> & -> & -> & -> & -> & _).
  repeat split.
Qed.

Lemma image_timed_out_frame (id : nat) (s : State) :
  elements (image_timed_out id s) = elements s /\
  option_buttons (image_timed_out id s) = option_buttons s /\
  inflight (image_timed_out id s) = inflight s /\
  isLoading (image_timed_out id s) = isLoading s /\
  currentQuestion (image_timed_out id s) = currentQuestion s.
Proof. unfold image_timed_out. destruct (contains _ _); repeat split. Qed.

Lemma displayImage_frame (url : option string) (s : State) :
  elements (displayImage url s) = elements s /\
  option_buttons (displayImage url s) = option_buttons s /\
  inflight (displayImage url s) = inflight s /\
  isLoading (displayImage url s) = isLoading s /\
  currentQuestion (displayImage url s) = currentQuestion s /\
  now (displayImage url s) = now s.
Proof. unfold displayImage. destruct (negb (truthy url)); repeat split. Qed.

Lemma question_settled_inflight (r : Reply Payload) (s : State) :
  inflight (question_settled r s) = inflight s.
Proof.
  unfold question_settled, question_received.
  destruct r as [| |data]; try reflexivity.
  destruct (truthy (data_error data)); [reflexivity|].
  unfold displayQuestion.
  destruct (truthy (data_image data)), data; cbn;
    try reflexivity;
    now destruct (displayImage_frame (Q.image q)
                    (set_text questionText (Q.question q)
                       (set_currentQuestion (Some (QuestionData q)) s)))
      as (_ & _ & -> & _).
Qed.

(** ** The hint control *)

(** C10. Invoking the hint handler while no question has been fetched
    ([currentQuestion] is [null]) returns normally and changes nothing:
    the optional access yields no hint, so the hint text, its visibility
    and every control are as before. *)
Theorem showHint_before_first_question (s : State) :
  currentQuestion s = None -> showHint s = s.
Proof.
  intros Hnull. unfold showHint. rewrite Hnull. reflexivity.
Qed.

Lemma showHint_before_first_question_on_load :
  let s := page_loaded (fun _ => mkElement "" [] false) in
  currentQuestion s = None /\ showHint s = s.
Proof.
  split; [reflexivity|].
  apply (showHint_before_first_question
           (page_loaded (fun _ => mkElement "" [] false))).
  reflexivity.
Defined.

Lemma showHint_reveals (s : State) :
  truthy (currentQuestion s ≫= data_hint) = true ->
  text hintText (showHint s) = text_of (currentQuestion s ≫= data_hint) /\
  is_hidden hintText (showHint s) = false /\
  is_disabled hintButton (showHint s) = true.
Proof.
  intros Hhint. unfold showHint. rewrite Hhint. cbn.
  repeat split. apply has_class_remove.
Qed.

Lemma showHint_without_hint (s : State) :
  truthy (currentQuestion s ≫= data_hint) = false -> showHint s = s.
Proof. intros Hhint. unfold showHint. now rewrite Hhint. Qed.

Section HintRuns.
Variable browser : Browser.

Lemma loadNextQuestion_disables_hint (s : State) :
  is_disabled hintButton s = true ->
  is_disabled hintButton (loadNextQuestion s) = true.
Proof.
  intros H. unfold loadNextQuestion. destruct (isLoading s); [exact H|reflexivity].
Qed.

(** A disabled hint button stays disabled across every event other than
    those of [reenables_hint]. *)
Lemma hint_stays_disabled (s s' : State) (e : Event) :
  is_disabled hintButton s = true ->
  reenables_hint e = false ->
  step browser s e = Some s' ->
  is_disabled hintButton s' = true.
Proof.
  intros Hdis Hev Hstep. destruct e as [c|i r|id|id|id|ms]; cbn in Hstep.
  - destruct (clickable browser c s) eqn:Hc; [|discriminate].
    injection Hstep as <-. destruct c as [| | |k]; cbn.
    + unfold startQuiz. destruct (isLoading s); [exact Hdis|].
      now apply loadNextQuestion_disables_hint.
    + now apply loadNextQuestion_disables_hint.
    + cbn in Hc. rewrite Hdis in Hc. discriminate.
    + destruct (option_buttons s !! k); [|exact Hdis].
      unfold selectAnswer. destruct (isLoading s); exact Hdis.
  - destruct (inflight s !! i) as [[| sel |]|]; destruct r as [r|r|r];
      try discriminate; cbn in Hev; try discriminate.
    + injection Hstep as <-. destruct r; try discriminate. reflexivity.
    + injection Hstep as <-. destruct r; exact Hdis.
  - destruct (images s !! id) as [im|]; [|discriminate].
    destruct (negb (settled im) && negb (String.eqb (src im) "")); [|discriminate].
    injection Hstep as <-. unfold is_disabled, seq.
    now destruct (img_onload_frame id (mark_settled id s)) as (-> & _).
  - destruct (images s !! id) as [im|]; [|discriminate].
    destruct (negb (settled im)); [|discriminate].
    injection Hstep as <-. unfold is_disabled, seq.
    now destruct (img_onerror_frame id (mark_settled id s)) as (-> & _).
  - destruct (images s !! id) as [im|]; [|discriminate].
    destruct (timer im) as [due|]; [|discriminate].
    destruct (due <=? now s)%N; [|discriminate].
    injection Hstep as <-. unfold seq, image_timed_out.
    destruct (contains _ _); exact Hdis.
  - injection Hstep as <-. exact Hdis.
Qed.

Lemma no_reveal_while_disabled (evs : list Event) :
  forall s s',
    is_disabled hintButton s = true ->
    existsb reenables_hint evs = false ->
    run browser s evs = Some s' ->
    hint_reveals browser s evs = 0.
Proof.
  induction evs as [|e rest IH]; intros s s' Hdis Hev Hrun; [reflexivity|].
  cbn in Hev. apply orb_false_iff in Hev as [He Hrest].
  cbn in Hrun |- *. destruct (step browser s e) as [s1|] eqn:Hstep; [|reflexivity].
  assert (Hdis1 : is_disabled hintButton s1 = true)
    by (eapply hint_stays_disabled; eauto).
  rewrite (IH s1 s' Hdis1 Hrest Hrun).
  destruct e as [[| | |k]| | | | |]; try reflexivity.
  cbn in Hstep. rewrite Hdis in Hstep. discriminate.
Qed.

Lemma at_most_one_reveal (evs : list Event) :
  forall s s',
    existsb reenables_hint evs = false ->
    run browser s evs = Some s' ->
    hint_reveals browser s evs <= 1.
Proof.
  induction evs as [|e rest IH]; intros s s' Hev Hrun; [cbn; lia|].
  cbn in Hev. apply orb_false_iff in Hev as [He Hrest].
  cbn in Hrun |- *. destruct (step browser s e) as [s1|] eqn:Hstep; [|lia].
  assert (Hgen : hint_reveals browser s1 rest <= 1) by (eapply IH; eauto).
  destruct e as [[| | |k]| | | | |]; try (cbn; lia).
  destruct (truthy (currentQuestion s ≫= data_hint)) eqn:Hhint; [|cbn; lia].
  cbn in Hstep. destruct (negb (is_disabled hintButton s)); [|discriminate].
  injection Hstep as <-.
  rewrite (no_reveal_while_disabled rest (showHint s) s'); auto.
  now apply showHint_reveals.
Qed.

End HintRuns.

(** C7, as amended. A hint click on a question with a hint reveals the
    hint text and disables the hint control; on a question without a
    hint it changes nothing. Along any run that contains no event that
    enables the control again (a question fetch settling, an answer
    submission failing) the hint is revealed at most once. *)
Theorem hint_revealed_once_until_reenabled
    (browser : Browser) (s : State) (evs : list Event) :
  accepted browser s evs = true ->
  existsb reenables_hint evs = false ->
  hint_reveals browser s evs <= 1 /\
  (truthy (currentQuestion s ≫= data_hint) = true ->
     text hintText (showHint s) = text_of (currentQuestion s ≫= data_hint) /\
     is_hidden hintText (showHint s) = false /\
     is_disabled hintButton (showHint s) = true) /\
  (truthy (currentQuestion s ≫= data_hint) = false -> showHint s = s).
Proof.
  intros Hrun Hev. split; [|split].
  - unfold accepted in Hrun.
    destruct (run browser s evs) as [s'|] eqn:Hs'; [|discriminate].
    eapply at_most_one_reveal; eauto.
  - apply showHint_reveals.
  - apply showHint_without_hint.
Qed.

Lemma hint_revealed_once_until_reenabled_example :
  hint_reveals sample_browser
    (question_settled (Json (QuestionData tokyo_question))
       (loadNextQuestion (page_loaded blank_page)))
    [Click HintControl; Click (OptionControl 1)] <= 1.
Proof.
  refine (proj1 (hint_revealed_once_until_reenabled sample_browser _
                   [Click HintControl; Click (OptionControl 1)] _ _));
    vm_compute; reflexivity.
Defined.

(** C7, as stated, fails: after the question has arrived the hint is
    revealed, an option is picked, the submission fails, and the hint
    control, enabled again by the error state, reveals the hint of the
    same question a second time. *)
Lemma hint_revealed_twice_for_one_question :
  after sample_browser (page_loaded blank_page)
    [Click StartControl;
     Settle 1 (QuestionReply (Json (QuestionData tokyo_question)))]
    (fun s =>
       let evs := [Click HintControl; Click (OptionControl 1);
                   Settle 1 (AnswerReply NotOk); Click HintControl] in
       served evs = [] /\
       hint_reveals sample_browser s evs = 2 /\
       after sample_browser s evs
         (fun s' => currentQuestion s' = Some (QuestionData tokyo_question) /\
                    currentQuestion s = Some (QuestionData tokyo_question))).
Proof. vm_compute. repeat split. Qed.

(** ** Answer feedback *)

Lemma question_settled_buttons (q : Q.t) (s : State) :
  option_buttons (question_settled (Json (QuestionData q)) s)
  = List.map option_button (Q.options q).
Proof.
  unfold question_settled, question_received, displayQuestion, seq.
  cbn [data_error truthy data_image data_options data_question].
  destruct (truthy (Q.image q)); reflexivity.
Qed.

Lemma textContent_add_class (c : string) (b : Element) :
  textContent (add_class c b) = textContent b.
Proof. unfold add_class. now destruct (has_class c b). Qed.

Lemma answer_settled_buttons (data : A.t) (selectedOption : string) (s : State) :
  option_buttons (answer_settled selectedOption (Json data) s)
  = List.map (feedback data selectedOption) (option_buttons s).
Proof.
  unfold answer_settled, seq, showResultFeedback, highlightAnswers, disableOptions,
    map_options, seq.
  cbn [option_buttons set_option_buttons updateScoreDisplay set_text update
       set_elements classList_remove loadHistory fetch set_inflight seq
       set_disabled].
  rewrite !List.map_map. apply List.map_ext. intros b. unfold feedback. cbv zeta.
  destruct (String.eqb (textContent b) (A.correct_answer data)) eqn:Hc;
    destruct (String.eqb (textContent b) selectedOption) eqn:Hs;
    destruct (A.is_correct data);
    cbn [andb negb with_disabled textContent];
    rewrite ?textContent_add_class, ?Hc, ?Hs; reflexivity.
Qed.

Lemma feedback_text (data : A.t) (selectedOption : string) (b : Element) :
  textContent (feedback data selectedOption b) = textContent b.
Proof.
  unfold feedback. cbv zeta.
  destruct (String.eqb (textContent b) (A.correct_answer data));
    destruct (String.eqb (textContent b) selectedOption);
    destruct (A.is_correct data);
    cbn [andb negb with_disabled textContent];
    now rewrite ?textContent_add_class; cbn [with_disabled textContent];
    rewrite ?textContent_add_class.
Qed.

Lemma feedback_disabled (data : A.t) (selectedOption : string) (b : Element) :
  disabled (feedback data selectedOption b) = true.
Proof. reflexivity. Qed.

(** A fresh option button ends up marked [correct-option] exactly when
    its text is the correct answer the server reported. *)
Lemma feedback_correct (data : A.t) (selectedOption : string) (b : Element) :
  has_class "correct-option" b = false ->
  has_class "correct-option" (feedback data selectedOption b)
  = String.eqb (textContent b) (A.correct_answer data).
Proof.
  intros Hfresh. unfold feedback. cbv zeta.
  destruct (String.eqb (textContent b) (A.correct_answer data)).
  - rewrite has_class_with_disabled. apply has_class_add.
  - destruct (String.eqb (textContent b) selectedOption);
      destruct (A.is_correct data); cbn [andb negb];
      rewrite ?has_class_with_disabled, ?has_class_add_other,
        ?has_class_with_disabled, ?has_class_add_other by reflexivity;
      exact Hfresh.
Qed.

Lemma count_marked (data : A.t) (selectedOption : string) (l : list string) :
  List.length
    (List.filter (has_class "correct-option")
       (List.map (feedback data selectedOption)
          (List.map (with_disabled true) (List.map option_button l))))
  = count_occ string_dec l (A.correct_answer data).
Proof.
  induction l as [|o l IH]; [reflexivity|].
  cbn [List.map List.filter count_occ].
  rewrite feedback_correct by reflexivity.
  cbn [with_disabled option_button textContent].
  destruct (string_dec o (A.correct_answer data)) as [->|Hne].
  - rewrite String.eqb_refl. cbn [List.length]. now rewrite IH.
  - apply String.eqb_neq in Hne. now rewrite Hne.
Qed.

Lemma question_settled_clears_flag (r : Reply Payload) (s : State) :
  isLoading (question_settled r s) = false.
Proof. reflexivity. Qed.

Lemma selectAnswer_buttons (selectedOption : string) (s : State) :
  isLoading s = false ->
  option_buttons (selectAnswer selectedOption s)
  = List.map (with_disabled true) (option_buttons s).
Proof. intros Hidle. unfold selectAnswer. now rewrite Hidle. Qed.

Lemma answered_buttons (s0 : State) (q : Q.t) (sel : string) (data : A.t) :
  option_buttons
    (answer_settled sel (Json data)
       (selectAnswer sel
          (question_settled (Json (QuestionData q)) (loadNextQuestion s0))))
  = List.map (feedback data sel)
      (List.map (with_disabled true) (List.map option_button (Q.options q))).
Proof.
  rewrite answer_settled_buttons, selectAnswer_buttons
    by apply question_settled_clears_flag.
  now rewrite question_settled_buttons.
Qed.

(** C4, as amended. After a question has been fetched, an option picked
    and the submission answered, the option controls carrying the
    marking [correct-option] are exactly those whose text equals the
    correct answer the server reported, whichever option was picked; so
    there are as many of them as that answer has occurrences among the
    options of the question, and exactly one when it occurs once. *)
Theorem correct_marking_follows_text
    (s0 : State) (q : Q.t) (selectedOption : string) (data : A.t) :
  let s := answer_settled selectedOption (Json data)
             (selectAnswer selectedOption
                (question_settled (Json (QuestionData q)) (loadNextQuestion s0))) in
  List.map textContent (option_buttons s) = Q.options q /\
  List.Forall
    (fun button =>
       has_class "correct-option" button
       = String.eqb (textContent button) (A.correct_answer data))
    (option_buttons s) /\
  List.length (marked_correct s)
  = count_occ string_dec (Q.options q) (A.correct_answer data).
Proof.
  cbv zeta. unfold marked_correct. rewrite answered_buttons. split; [|split].
  - rewrite !List.map_map. erewrite List.map_ext; [apply List.map_id|].
    intros o. now rewrite feedback_text.
  - rewrite !List.map_map. apply List.Forall_forall. intros b Hb.
    apply List.in_map_iff in Hb as (o & <- & _).
    rewrite feedback_correct by reflexivity. now rewrite feedback_text.
  - apply count_marked.
Qed.

(** C4, as stated, fails: with the correct answer listed twice among the
    options two controls are marked, and with a reported correct answer
    that is none of the options no control is. *)
Lemma correct_marking_not_unique :
  let twice := Q.mk "Capital of Japan?" ["Tokyo"; "Kyoto"; "Tokyo"] "Tokyo" None "easy" None in
  let cycle q data :=
    answer_settled "Kyoto" (Json data)
      (selectAnswer "Kyoto"
         (question_settled (Json (QuestionData q))
            (loadNextQuestion (page_loaded blank_page)))) in
  List.map marking (option_buttons (cycle twice (A.mk false "Tokyo" 0 1)))
  = [("Tokyo", true, false); ("Kyoto", false, true); ("Tokyo", true, false)] /\
  List.length (marked_correct (cycle twice (A.mk false "Tokyo" 0 1))) = 2 /\
  List.length (marked_correct (cycle tokyo_question (A.mk false "Tokio" 0 1))) = 0.
Proof. vm_compute. repeat split. Qed.

(** C5. For the question "Capital of Japan?" with options Kyoto, Osaka,
    Tokyo, Hiroshima, picking "Osaka" (the second control) and getting
    the reply [is_correct = false], correct answer "Tokyo", shows the
    message "❌ Incorrect. The correct answer is Tokyo.", marks the
    "Tokyo" control [correct-option] and the "Osaka" control
    [incorrect-option], and marks no other control. *)
Theorem capital_of_japan_example
    (s0 : State) (hint image : option string)
    (difficulty : string) (score total : N) :
  let q := Q.mk "Capital of Japan?" ["Kyoto"; "Osaka"; "Tokyo"; "Hiroshima"]
                "Tokyo" hint difficulty image in
  let s1 := question_settled (Json (QuestionData q)) (loadNextQuestion s0) in
  let s2 := on_click (OptionControl 1) s1 in
  let s3 := answer_settled "Osaka" (Json (A.mk false "Tokyo" score total)) s2 in
  inflight s2 = (inflight s1 ++ [CheckAnswer "Osaka"])%list /\
  text resultText s3 = "❌ Incorrect. The correct answer is Tokyo." /\
  is_hidden resultContainer s3 = false /\
  List.map marking (option_buttons s3)
  = [("Kyoto", false, false); ("Osaka", false, true);
     ("Tokyo", true, false); ("Hiroshima", false, false)].
Proof.
  cbv zeta.
  set (q := Q.mk _ _ _ _ _ _).
  set (s1 := question_settled _ _).
  assert (Hb : option_buttons s1 = List.map option_button (Q.options q))
    by apply question_settled_buttons.
  assert (Hclick : on_click (OptionControl 1) s1 = selectAnswer "Osaka" s1).
  { unfold on_click. now rewrite Hb. }
  rewrite Hclick. split; [reflexivity|]. split; [reflexivity|].
  split; [apply has_class_remove|].
  rewrite answer_settled_buttons, selectAnswer_buttons, Hb by reflexivity.
  vm_compute. reflexivity.
Qed.

(** ** History *)

Lemma append_assoc (a b c : string) : (a +:+ b) +:+ c = a +:+ b +:+ c.
Proof.
  induction a as [|x a IH]; [reflexivity|].
  change (String x ((a +:+ b) +:+ c) = String x (a +:+ b +:+ c)).
  now rewrite IH.
Qed.

Lemma occurs_here (sub rest : string) : occurs sub (sub +:+ rest).
Proof. exists "", rest. reflexivity. Qed.

Lemma occurs_here3 (a b c rest : string) :
  occurs (a +:+ b +:+ c) (a +:+ b +:+ c +:+ rest).
Proof. exists "", rest. cbn. now rewrite !append_assoc. Qed.

Lemma occurs_later (sub x s : string) : occurs sub s -> occurs sub (x +:+ s).
Proof.
  intros (before & rest & ->). exists (x +:+ before), rest.
  now rewrite append_assoc.
Qed.

Lemma occurs_here4 (a b c d rest : string) :
  occurs (a +:+ (b +:+ c) +:+ d) (a +:+ b +:+ c +:+ d +:+ rest).
Proof. exists "", rest. cbn. now rewrite !append_assoc. Qed.

Ltac find_occurrence :=
  repeat first [ apply occurs_here3 | apply occurs_here4 | apply occurs_later ].

(** C6. For every history payload the rendered history is the server's
    entry list in reverse order, newest first: the entry at position [k]
    of the payload is rendered at position [n - 1 - k] of the [n]
    rendered items, whose concatenation is what the history panel shows
    (the panel shows the "no history" note when there is no entry).
    Each rendered item shows the entry's question text, user answer,
    correct answer, difficulty badge and the locale's time of its
    timestamp. *)
Theorem history_rendered_newest_first (browser : Browser) (data : H.t) (s : State) :
  history_html (renderHistory browser data s)
  = (if decide (H.history data = []) then no_history
     else join (history_items browser data)) /\
  List.length (history_items browser data) = List.length (H.history data) /\
  (forall k entry,
     H.history data !! k = Some entry ->
     history_items browser data !! (List.length (H.history data) - 1 - k)
     = Some (history_item browser entry)) /\
  (forall entry,
     let item := history_item browser entry in
     occurs (div_open "history-question" +:+ H.question entry +:+ "</div>") item /\
     occurs (span_open "user-answer" +:+ ("You: " +:+ H.user_answer entry) +:+ "</span>") item /\
     occurs (span_open "correct-answer" +:+ ("Correct: " +:+ H.correct_answer entry) +:+ "</span>") item /\
     occurs (span_open ("difficulty-badge " +:+ H.difficulty entry)
               +:+ H.difficulty entry +:+ "</span>") item /\
     occurs (div_open "history-time"
               +:+ toLocaleTimeString browser (H.timestamp entry) +:+ "</div>") item).
Proof.
  split; [|split; [|split]].
  - unfold renderHistory. cbn [history_html set_history_html].
    destruct (H.history data); reflexivity.
  - unfold history_items. now rewrite length_fmap, length_reverse.
  - intros k entry Hk. unfold history_items.
    pose proof (lookup_lt_Some _ _ _ Hk) as Hlt.
    rewrite list_lookup_fmap, reverse_lookup by lia.
    replace (_ - S _) with k by lia. now rewrite Hk.
  - intros entry. cbv zeta. unfold history_item.
    repeat split.
    + find_occurrence.
    + find_occurrence.
    + find_occurrence.
    + find_occurrence.
    + find_occurrence.
Qed.

(** ** Requests in flight *)

Lemma lookup_last_request (l : list Request) (r : Request) :
  ((l ++ [r])%list) !! List.length l = Some r.
Proof. now apply list_lookup_middle. Qed.

Lemma delete_last_request (l : list Request) (r : Request) :
  delete (List.length l) ((l ++ [r])%list) = l.
Proof. induction l as [|x l IH]; [reflexivity|]. simpl. f_equal. exact IH. Qed.

(** ** Failures *)

Lemma failed_fetch_shows_error (r : Reply Payload) (s : State) :
  fetch_failed r = true ->
  question_settled r s = (set_isLoading false >>> enableButtons) (showErrorState s).
Proof.
  intros Hfail. unfold question_settled, question_received.
  destruct r as [| |data]; try reflexivity.
  cbn in Hfail. now rewrite Hfail.
Qed.

(** C2: what a failed question fetch leaves behind. For every question
    fetch in flight that fails (rejected request, response that is not
    ok, payload with an error field) the page shows the generic error
    message, the start and hint buttons are enabled again, and the next
    button, relabelled "Try Again", is disabled: a click on it is not
    delivered. *)
Theorem failed_fetch_leaves_next_disabled
    (browser : Browser) (s : State) (i : nat) (r : Reply Payload) :
  inflight s !! i = Some GetQuestion ->
  fetch_failed r = true ->
  exists s',
    step browser s (Settle i (QuestionReply r)) = Some s' /\
    text resultText s' = error_message /\
    is_hidden resultContainer s' = false /\
    is_disabled startButton s' = false /\
    is_disabled hintButton s' = false /\
    isLoading s' = false /\
    text nextButton s' = "Try Again" /\
    is_disabled nextButton s' = true /\
    step browser s' (Click NextControl) = None.
Proof.
  intros Hreq Hfail. eexists. split.
  { cbn [step]. rewrite Hreq. reflexivity. }
  rewrite failed_fetch_shows_error by exact Hfail.
  repeat split. apply has_class_remove.
Qed.

Lemma failed_fetch_leaves_next_disabled_rate_limited :
  exists s',
    step sample_browser (loadNextQuestion (page_loaded blank_page))
         (Settle 1 (QuestionReply (Json (ErrorObject "rate limited")))) = Some s' /\
    text resultText s' = error_message /\
    is_hidden resultContainer s' = false /\
    is_disabled startButton s' = false /\
    is_disabled hintButton s' = false /\
    isLoading s' = false /\
    text nextButton s' = "Try Again" /\
    is_disabled nextButton s' = true /\
    step sample_browser s' (Click NextControl) = None.
Proof.
  apply (failed_fetch_leaves_next_disabled sample_browser
           (loadNextQuestion (page_loaded blank_page)) 1
           (Json (ErrorObject "rate limited"))); reflexivity.
Defined.

(** ** One question cycle *)

Section Cycle.
Variable browser : Browser.
Variables (s : State) (q : Q.t) (k : nat) (o : string).
Hypothesis idle : isLoading s = false.
Hypothesis next_ready : clickable browser NextControl s = true.
Hypothesis picked : Q.options q !! k = Some o.

Local Abbreviation s1 := (loadNextQuestion s).
Local Abbreviation s2 := (asked s q).
Local Abbreviation s3 := (submitted s q o).

Lemma cycle_click_next : step browser s (Click NextControl) = Some s1.
Proof. cbn [step]. now rewrite next_ready. Qed.

Lemma cycle_inflight_s1 : inflight s1 = (inflight s ++ [GetQuestion])%list.
Proof. unfold loadNextQuestion. now rewrite idle. Qed.

Lemma cycle_question_arrives :
  step browser s1
       (Settle (List.length (inflight s)) (QuestionReply (Json (QuestionData q))))
  = Some s2.
Proof.
  cbn [step]. rewrite cycle_inflight_s1, lookup_last_request, delete_last_request.
  reflexivity.
Qed.

Lemma cycle_buttons_s2 : option_buttons s2 = List.map option_button (Q.options q).
Proof. apply question_settled_buttons. Qed.

Lemma cycle_inflight_s2 : inflight s2 = inflight s.
Proof. unfold asked. now rewrite question_settled_inflight. Qed.

Lemma cycle_pick : step browser s2 (Click (OptionControl k)) = Some s3.
Proof.
  cbn [step clickable on_click]. rewrite cycle_buttons_s2.
  change (List.map option_button (Q.options q)) with (option_button <$> Q.options q).
  rewrite list_lookup_fmap, picked. reflexivity.
Qed.

Lemma cycle_inflight_s3 : inflight s3 = (inflight s ++ [CheckAnswer o])%list.
Proof.
  unfold submitted, selectAnswer.
  rewrite (question_settled_clears_flag _ _ : isLoading (asked s q) = false).
  unfold seq, fetch. cbn [inflight set_inflight].
  change (inflight (disableOptions s2)) with (inflight s2).
  now rewrite cycle_inflight_s2.
Qed.

Lemma cycle_submission_settles (r : Reply A.t) :
  step browser s3 (Settle (List.length (inflight s)) (AnswerReply r))
  = Some (answer_settled o r (set_inflight (inflight s) s3)).
Proof.
  cbn [step]. rewrite cycle_inflight_s3, lookup_last_request, delete_last_request.
  reflexivity.
Qed.

Lemma cycle_next_disabled_s1 : is_disabled nextButton s1 = true.
Proof. unfold loadNextQuestion. now rewrite idle. Qed.

Lemma cycle_next_disabled_s2 : is_disabled nextButton s2 = true.
Proof. reflexivity. Qed.

Lemma cycle_next_disabled_s3 : is_disabled nextButton s3 = true.
Proof. reflexivity. Qed.

Lemma cycle_options_disabled_s3 : all_options_disabled s3 = true.
Proof.
  unfold all_options_disabled, submitted.
  rewrite selectAnswer_buttons by apply question_settled_clears_flag.
  apply forallb_forall. intros b Hb.
  apply List.in_map_iff in Hb as (b' & <- & _). reflexivity.
Qed.

(** When the submission fails, the options stay disabled and the next
    button is never enabled. *)
Lemma cycle_failed (r : Reply A.t) :
  submission_failed r = true ->
  exists s',
    run browser s (question_cycle s q k r) = Some s' /\
    all_options_disabled s' = true /\
    text resultText s' = error_message /\
    is_disabled nextButton s' = true /\
    next_enablings browser s (question_cycle s q k r) = 0.
Proof.
  intros Hfail. unfold question_cycle.
  assert (Hlast : answer_settled o r (set_inflight (inflight s) s3)
                  = showErrorState (set_inflight (inflight s) s3))
    by (destruct r; [reflexivity|reflexivity|discriminate]).
  exists (showErrorState (set_inflight (inflight s) s3)).
  cbn [run next_enablings].
  rewrite cycle_click_next, cycle_question_arrives, cycle_pick,
    cycle_submission_settles, Hlast.
  rewrite cycle_next_disabled_s1, cycle_next_disabled_s2, cycle_next_disabled_s3.
  repeat split.
  - apply cycle_options_disabled_s3.
  - cbn. now rewrite !andb_false_r.
Qed.

(** When the submission succeeds, the options are disabled and the next
    button is enabled once, by the last transition. *)
Lemma cycle_answered (data : A.t) :
  exists s',
    run browser s (question_cycle s q k (Json data)) = Some s' /\
    all_options_disabled s' = true /\
    is_disabled nextButton s' = false /\
    next_enablings browser s (question_cycle s q k (Json data)) = 1.
Proof.
  unfold question_cycle.
  exists (answer_settled o (Json data) (set_inflight (inflight s) s3)).
  cbn [run next_enablings].
  rewrite cycle_click_next, cycle_question_arrives, cycle_pick,
    cycle_submission_settles.
  rewrite cycle_next_disabled_s1, cycle_next_disabled_s2, cycle_next_disabled_s3.
  split; [reflexivity|]. split; [|split].
  - unfold all_options_disabled. rewrite answer_settled_buttons.
    apply forallb_forall. intros b Hb.
    apply List.in_map_iff in Hb as (b' & <- & _). reflexivity.
  - reflexivity.
  - cbn. now rewrite !andb_false_r.
Qed.

End Cycle.

(** C3: what a failed submission leaves behind. In a question cycle
    (next clicked on an idle page, a question fetched, one of its
    options picked) whose answer submission fails, every option control
    ends up disabled and the error message is shown, but the next
    control is disabled at the end and is not enabled by any transition
    of the cycle. *)
Theorem failed_submission_never_enables_next
    (browser : Browser) (s : State) (q : Q.t) (k : nat) (o : string)
    (r : Reply A.t) :
  isLoading s = false ->
  clickable browser NextControl s = true ->
  Q.options q !! k = Some o ->
  submission_failed r = true ->
  exists s',
    run browser s (question_cycle s q k r) = Some s' /\
    all_options_disabled s' = true /\
    text resultText s' = error_message /\
    is_disabled nextButton s' = true /\
    next_enablings browser s (question_cycle s q k r) = 0.
Proof. intros. eapply cycle_failed; eauto. Qed.

Lemma failed_submission_never_enables_next_osaka :
  exists s',
    run sample_browser (page_loaded blank_page)
        (question_cycle (page_loaded blank_page) tokyo_question 1 NotOk) = Some s' /\
    all_options_disabled s' = true /\
    text resultText s' = error_message /\
    is_disabled nextButton s' = true /\
    next_enablings sample_browser (page_loaded blank_page)
      (question_cycle (page_loaded blank_page) tokyo_question 1 NotOk) = 0.
Proof.
  apply (failed_submission_never_enables_next sample_browser
           (page_loaded blank_page) tokyo_question 1 "Osaka" NotOk);
    reflexivity.
Defined.

(** ** Where the current question comes from *)

Section Provenance.
Variable browser : Browser.

Lemma loadNextQuestion_question (s : State) :
  currentQuestion (loadNextQuestion s) = currentQuestion s.
Proof. unfold loadNextQuestion. now destruct (isLoading s). Qed.

Lemma question_settled_question (r : Reply Payload) (s : State) :
  currentQuestion (question_settled r s)
  = match r with
    | Json data => if truthy (data_error data) then currentQuestion s else Some data
    | _ => currentQuestion s
    end.
Proof.
  unfold question_settled, question_received.
  destruct r as [| |data]; try reflexivity.
  destruct (truthy (data_error data)); [reflexivity|].
  unfold displayQuestion.
  destruct data as [q|e]; [|reflexivity].
  cbn [data_image data_options data_question createOptionButtons].
  destruct (truthy (Q.image q)); [|reflexivity].
  cbn.
  now destruct (displayImage_frame (Q.image q)
                  (set_text questionText (Q.question q)
                     (set_currentQuestion (Some (QuestionData q)) s)))
    as (_ & _ & _ & _ & -> & _).
Qed.

Lemma step_question (s s' : State) (e : Event) :
  step browser s e = Some s' ->
  currentQuestion s' = currentQuestion s \/
  exists i data,
    e = Settle i (QuestionReply (Json data)) /\ currentQuestion s' = Some data.
Proof.
  intros Hstep. destruct e as [c|i r|id|id|id|ms]; cbn in Hstep.
  - destruct (clickable browser c s); [|discriminate].
    injection Hstep as <-. left. destruct c as [| | |k]; cbn.
    + unfold startQuiz. destruct (isLoading s); [reflexivity|].
      apply loadNextQuestion_question.
    + apply loadNextQuestion_question.
    + unfold showHint. now destruct (negb _).
    + destruct (option_buttons s !! k); [|reflexivity].
      unfold selectAnswer. now destruct (isLoading s).
  - destruct (inflight s !! i) as [[| sel |]|]; destruct r as [r|r|r];
      try discriminate; injection Hstep as <-.
    + rewrite question_settled_question. destruct r as [| |data]; cbn; auto.
      destruct (truthy (data_error data)); eauto.
    + left. now destruct r.
    + left. now destruct r.
  - destruct (images s !! id) as [im|]; [|discriminate].
    destruct (negb (settled im) && negb (String.eqb (src im) "")); [|discriminate].
    injection Hstep as <-. left. unfold seq.
    now destruct (img_onload_frame id (mark_settled id s)) as (_ & _ & _ & _ & ->).
  - destruct (images s !! id) as [im|]; [|discriminate].
    destruct (negb (settled im)); [|discriminate].
    injection Hstep as <-. left. unfold seq.
    now destruct (img_onerror_frame id (mark_settled id s)) as (_ & _ & _ & _ & ->).
  - destruct (images s !! id) as [im|]; [|discriminate].
    destruct (timer im) as [due|]; [|discriminate].
    destruct (due <=? now s)%N; [|discriminate].
    injection Hstep as <-. left. unfold seq.
    now destruct (image_timed_out_frame id (clearTimeout id s)) as (_ & _ & _ & _ & ->).
  - injection Hstep as <-. now left.
Qed.

Lemma served_cons (e : Event) (rest : list Event) (d : Payload) :
  In d (served rest) -> In d (served (e :: rest)).
Proof.
  intros Hin. destruct e as [c|i [[| |data]|r|r]|id|id|id|ms]; cbn; auto.
Qed.

Lemma run_question (evs : list Event) :
  forall s s',
    run browser s evs = Some s' ->
    currentQuestion s' = currentQuestion s \/
    exists data, currentQuestion s' = Some data /\ In data (served evs).
Proof.
  induction evs as [|e rest IH]; intros s s' Hrun; cbn in Hrun.
  - injection Hrun as <-. now left.
  - destruct (step browser s e) as [s1|] eqn:Hstep; [|discriminate].
    destruct (IH _ _ Hrun) as [Hsame | (data & Hq & Hin)].
    + destruct (step_question _ _ _ Hstep) as [Hkeep | (i & data & -> & Hq)].
      * left. congruence.
      * right. exists data. split; [congruence|]. cbn. now left.
    + right. exists data. split; [exact Hq|]. now apply served_cons.
Qed.

End Provenance.

(** C9. The local fallback questions are never served: a question fetch
    that fails shows the generic error message and leaves the current
    question and the option controls as they were, and on every
    reachable page the current question, if there is one, is a payload
    that the server delivered in answer to a question fetch. *)
Theorem failed_fetch_serves_no_local_question (browser : Browser) :
  (forall s i r,
     inflight s !! i = Some GetQuestion ->
     fetch_failed r = true ->
     exists s',
       step browser s (Settle i (QuestionReply r)) = Some s' /\
       text resultText s' = error_message /\
       is_hidden resultContainer s' = false /\
       currentQuestion s' = currentQuestion s /\
       option_buttons s' = option_buttons s) /\
  (forall els evs s,
     run browser (page_loaded els) evs = Some s ->
     currentQuestion s = None \/
     exists data, currentQuestion s = Some data /\ In data (served evs)).
Proof.
  split.
  - intros s i r Hreq Hfail. eexists. split.
    { cbn [step]. rewrite Hreq. reflexivity. }
    rewrite failed_fetch_shows_error by exact Hfail.
    repeat split. apply has_class_remove.
  - intros els evs s Hrun.
    destruct (run_question browser evs _ _ Hrun) as [Hsame|Hserved]; auto.
Qed.

(** ** Image loading *)

Lemma sources_kept_refl (l : list ImageObj) : sources_kept l l.
Proof. intros id im H. eauto. Qed.

Lemma sources_kept_trans (l1 l2 l3 : list ImageObj) :
  sources_kept l1 l2 -> sources_kept l2 l3 -> sources_kept l1 l3.
Proof.
  intros H12 H23 id im H.
  destruct (H12 _ _ H) as (im2 & H2 & Hs2).
  destruct (H23 _ _ H2) as (im3 & H3 & Hs3).
  exists im3. split; [exact H3|]. destruct Hs2, Hs3; intuition congruence.
Qed.

Lemma sources_kept_alter (f : ImageObj -> ImageObj) (k : nat) (l : list ImageObj) :
  (forall im, src (f im) = src im \/ src (f im) = "") ->
  sources_kept l (alter f k l).
Proof.
  intros Hf id im H. destruct (decide (k = id)) as [->|Hne].
  - exists (f im). rewrite list_lookup_alter_eq, H. auto.
  - exists im. rewrite list_lookup_alter_ne by exact Hne. auto.
Qed.

Lemma sources_kept_app (l extra : list ImageObj) : sources_kept l (l ++ extra)%list.
Proof.
  intros id im H. exists im. split; [|now left].
  now apply lookup_app_l_Some.
Qed.

Lemma contains_removeChild (n m : Node) (l : list Node) :
  contains (removeChild n l) m = true -> contains l m = true.
Proof.
  unfold contains, removeChild. rewrite !existsb_exists.
  intros (x & Hin & Hx). apply List.filter_In in Hin as [Hin _]. eauto.
Qed.

Lemma contains_removeChild_self (n : Node) (l : list Node) :
  contains (removeChild n l) n = false.
Proof.
  unfold contains, removeChild. induction l as [|x l IH]; [reflexivity|].
  cbn [List.filter]. destruct (same_node n x) eqn:E; cbn [negb existsb]; [exact IH|].
  now rewrite E, IH.
Qed.

Lemma same_node_eq (a b : Node) : same_node a b = true -> a = b.
Proof.
  destruct a, b; cbn; try discriminate; try reflexivity;
    intros H; apply Nat.eqb_eq in H; now subst.
Qed.

Lemma contains_app (l1 l2 : list Node) (n : Node) :
  contains (l1 ++ l2)%list n = contains l1 n || contains l2 n.
Proof. unfold contains. apply existsb_app. Qed.

Lemma displayImage_sources (url : option string) (s : State) :
  sources_kept (images s) (images (displayImage url s)).
Proof.
  unfold displayImage. destruct (negb (truthy url)); cbn.
  - apply sources_kept_refl.
  - apply sources_kept_app.
Qed.

Lemma displayImage_no_picture (url : option string) (s : State) (id : nat) :
  contains (image_nodes (displayImage url s)) (QuestionImage id) = false.
Proof. unfold displayImage. now destruct (negb (truthy url)). Qed.

Lemma loadNextQuestion_images (s : State) :
  images (loadNextQuestion s) = images s /\
  (image_nodes (loadNextQuestion s) = image_nodes s \/
   image_nodes (loadNextQuestion s) = [ImagePlaceholder]).
Proof. unfold loadNextQuestion. destruct (isLoading s); auto. Qed.

Lemma question_settled_images (r : Reply Payload) (s : State) (id : nat) :
  sources_kept (images s) (images (question_settled r s)) /\
  (contains (image_nodes (question_settled r s)) (QuestionImage id) = true ->
   contains (image_nodes s) (QuestionImage id) = true).
Proof.
  unfold question_settled, question_received.
  destruct r as [| |data]; try (split; [apply sources_kept_refl|auto]).
  destruct (truthy (data_error data)); [split; [apply sources_kept_refl|auto]|].
  unfold displayQuestion.
  destruct data as [q|e].
  - cbn [data_image data_options data_question createOptionButtons].
    set (s0 := set_text questionText (text_of (Some (Q.question q)))
                 (set_currentQuestion (Some (QuestionData q)) s)).
    destruct (truthy (Q.image q)).
    + split; [exact (displayImage_sources (Q.image q) s0)|].
      change (contains (image_nodes (displayImage (Q.image q) s0)) (QuestionImage id)
              = true -> contains (image_nodes s) (QuestionImage id) = true).
      rewrite displayImage_no_picture. discriminate.
    + split; [apply sources_kept_refl|].
      change (contains [ImagePlaceholder] (QuestionImage id) = true ->
              contains (image_nodes s) (QuestionImage id) = true).
      discriminate.
  - split; [apply sources_kept_refl|].
    change (contains [ImagePlaceholder] (QuestionImage id) = true ->
            contains (image_nodes s) (QuestionImage id) = true).
    discriminate.
Qed.

Lemma remove_loader_nodes (id : nat) (s : State) (n : Node) :
  contains (image_nodes (remove_loader id s)) n = true ->
  contains (image_nodes s) n = true.
Proof.
  unfold remove_loader. destruct (contains (image_nodes s) (ImageLoading id)); [|auto].
  cbn. apply contains_removeChild.
Qed.

Lemma remove_loader_gone (id : nat) (s : State) :
  contains (image_nodes (remove_loader id s)) (ImageLoading id) = false.
Proof.
  unfold remove_loader.
  destruct (contains (image_nodes s) (ImageLoading id)) eqn:E; [|exact E].
  cbn. apply contains_removeChild_self.
Qed.

Lemma img_onload_nodes (id : nat) (s : State) :
  image_nodes (img_onload id s)
  = (removeChild (QuestionImage id) (image_nodes (remove_loader id s))
       ++ [QuestionImage id])%list.
Proof.
  unfold img_onload, seq, remove_loader.
  change (image_nodes (clearTimeout id s)) with (image_nodes s).
  destruct (contains (image_nodes s) (ImageLoading id)); reflexivity.
Qed.

Lemma img_onload_images (id : nat) (s : State) :
  images (img_onload id s)
  = alter (fun im => mkImage (src im) "question-image" (settled im) (timer im)) id
      (alter (fun im => mkImage (src im) (className im) (settled im) None) id
         (images s)).
Proof.
  unfold img_onload, seq, remove_loader.
  destruct (contains (image_nodes (clearTimeout id s)) (ImageLoading id));
    reflexivity.
Qed.

Lemma img_onerror_images (id : nat) (s : State) :
  images (img_onerror id s)
  = alter (fun im => mkImage (src im) (className im) (settled im) None) id (images s).
Proof.
  unfold img_onerror, seq, remove_loader.
  destruct (contains (image_nodes (clearTimeout id s)) (ImageLoading id));
    reflexivity.
Qed.

Lemma img_onerror_nodes (id : nat) (s : State) :
  image_nodes (img_onerror id s) = [ImagePlaceholder].
Proof. reflexivity. Qed.

Lemma image_timed_out_images (id : nat) (s : State) :
  sources_kept (images s) (images (image_timed_out id s)).
Proof.
  unfold image_timed_out. destruct (contains _ _).
  - apply sources_kept_alter. cbn. auto.
  - apply sources_kept_refl.
Qed.

Lemma image_timed_out_nodes (id : nat) (s : State) (n : Node) :
  contains (image_nodes (image_timed_out id s)) n = true ->
  contains (image_nodes s) n = true \/ n = ImagePlaceholder.
Proof.
  unfold image_timed_out.
  destruct (contains (image_nodes s) (ImageLoading id)); [|auto].
  change (contains [ImagePlaceholder] n = true ->
          contains (image_nodes s) n = true \/ n = ImagePlaceholder).
  unfold contains. cbn [existsb]. rewrite orb_false_r.
  intros H. right. now apply same_node_eq in H.
Qed.

Section ImageRuns.
Variable browser : Browser.

(** Across any event the image objects keep their source or lose it, and
    a question image enters the container only by its own load event. *)
Lemma step_images (s s' : State) (e : Event) :
  step browser s e = Some s' ->
  sources_kept (images s) (images s') /\
  forall id,
    contains (image_nodes s') (QuestionImage id) = true ->
    contains (image_nodes s) (QuestionImage id) = true \/ e = ImageLoad id.
Proof.
  intros Hstep. destruct e as [c|i r|id0|id0|id0|ms]; cbn [step] in Hstep.
  - destruct (clickable browser c s); [|discriminate].
    injection Hstep as <-. destruct c as [| | |k]; cbn [on_click].
    + unfold startQuiz. destruct (isLoading s) eqn:Hl.
      { split; [apply sources_kept_refl|auto]. }
      destruct (loadNextQuestion_images s) as [-> [-> | ->]];
        (split; [apply sources_kept_refl|auto]); discriminate.
    + destruct (loadNextQuestion_images s) as [-> [-> | ->]];
        (split; [apply sources_kept_refl|auto]); discriminate.
    + unfold showHint. destruct (negb _); (split; [apply sources_kept_refl|auto]).
    + destruct (option_buttons s !! k); [|split; [apply sources_kept_refl|auto]].
      unfold selectAnswer. destruct (isLoading s);
        (split; [apply sources_kept_refl|auto]).
  - destruct (inflight s !! i) as [[| sel |]|]; destruct r as [r|r|r];
      try discriminate; injection Hstep as <-.
    + pose proof (question_settled_images r
                    (set_inflight (delete i (inflight s)) s)) as Hq.
      split; [exact (proj1 (Hq 0))|].
      intros id H. left. exact (proj2 (Hq id) H).
    + destruct r; (split; [apply sources_kept_refl|auto]).
    + destruct r; (split; [apply sources_kept_refl|auto]).
  - destruct (images s !! id0) as [im|]; [|discriminate].
    destruct (negb (settled im) && negb (String.eqb (src im) "")); [|discriminate].
    injection Hstep as <-. unfold seq. split.
    + rewrite img_onload_images.
      change (images (mark_settled id0 s))
        with (alter (fun im => mkImage (src im) (className im) true (timer im))
                    id0 (images s)).
      eapply sources_kept_trans; [|apply sources_kept_alter; cbn; auto].
      eapply sources_kept_trans; apply sources_kept_alter; cbn; auto.
    + intros id H. rewrite img_onload_nodes, contains_app in H.
      apply orb_true_iff in H as [H|H].
      * left. apply contains_removeChild, remove_loader_nodes in H. exact H.
      * right. unfold contains in H. cbn [existsb same_node] in H.
        rewrite orb_false_r in H. apply Nat.eqb_eq in H. now subst.
  - destruct (images s !! id0) as [im|]; [|discriminate].
    destruct (negb (settled im)); [|discriminate].
    injection Hstep as <-. unfold seq. split.
    + rewrite img_onerror_images.
      change (images (mark_settled id0 s))
        with (alter (fun im => mkImage (src im) (className im) true (timer im))
                    id0 (images s)).
      eapply sources_kept_trans; apply sources_kept_alter; cbn; auto.
    + intros id H. rewrite img_onerror_nodes in H. discriminate.
  - destruct (images s !! id0) as [im|]; [|discriminate].
    destruct (timer im) as [due|]; [|discriminate].
    destruct (due <=? now s)%N; [|discriminate].
    injection Hstep as <-. unfold seq. split.
    + eapply sources_kept_trans; [|apply image_timed_out_images].
      apply sources_kept_alter. cbn. auto.
    + intros id H. apply image_timed_out_nodes in H as [H|H]; [now left|discriminate].
  - injection Hstep as <-. split; [apply sources_kept_refl|auto].
Qed.

(** An image whose source has been cleared never enters the container. *)
Lemma cleared_image_never_shown (id : nat) (evs : list Event) :
  forall s s',
    (exists im, images s !! id = Some im /\ src im = "") ->
    contains (image_nodes s) (QuestionImage id) = false ->
    run browser s evs = Some s' ->
    contains (image_nodes s') (QuestionImage id) = false /\
    step browser s' (ImageLoad id) = None.
Proof.
  induction evs as [|e rest IH]; intros s s' (im & Him & Hsrc) Hout Hrun;
    cbn in Hrun.
  - injection Hrun as <-. split; [exact Hout|].
    cbn. rewrite Him, Hsrc. now rewrite andb_false_r.
  - destruct (step browser s e) as [s1|] eqn:Hstep; [|discriminate].
    destruct (step_images _ _ _ Hstep) as [Hkept Hnodes].
    apply (IH s1 s'); [| |exact Hrun].
    + destruct (Hkept _ _ Him) as (im1 & H1 & Hs1). exists im1.
      split; [exact H1|]. destruct Hs1; congruence.
    + destruct (contains (image_nodes s1) (QuestionImage id)) eqn:E; [|reflexivity].
      destruct (Hnodes _ E) as [Hwas | ->]; [congruence|].
      cbn in Hstep. rewrite Him, Hsrc in Hstep.
      rewrite andb_false_r in Hstep. discriminate.
Qed.

End ImageRuns.

Lemma timed_out_with_loader (id : nat) (s : State) (im : ImageObj) :
  images s !! id = Some im ->
  contains (image_nodes s) (ImageLoading id) = true ->
  image_nodes (image_timed_out id (clearTimeout id s)) = [ImagePlaceholder] /\
  exists im',
    images (image_timed_out id (clearTimeout id s)) !! id = Some im' /\ src im' = "".
Proof.
  intros Him Hloader. unfold image_timed_out.
  change (image_nodes (clearTimeout id s)) with (image_nodes s).
  rewrite Hloader. split; [reflexivity|].
  exists (mkImage "" (className im) (settled im) None). split; [|reflexivity].
  change (alter (fun im => mkImage "" (className im) (settled im) (timer im)) id
            (alter (fun im => mkImage (src im) (className im) (settled im) None) id
               (images s)) !! id
          = Some (mkImage "" (className im) (settled im) None)).
  now rewrite !list_lookup_alter_eq, Him.
Qed.

Lemma timed_out_without_loader (id : nat) (s : State) :
  contains (image_nodes s) (ImageLoading id) = false ->
  image_timed_out id (clearTimeout id s) = clearTimeout id s.
Proof.
  intros Hloader. unfold image_timed_out.
  change (image_nodes (clearTimeout id s)) with (image_nodes s).
  now rewrite Hloader.
Qed.

Lemma step_timer (browser : Browser) (s s' : State) (id : nat) :
  step browser s (TimerDue id) = Some s' ->
  s' = image_timed_out id (clearTimeout id s) /\
  exists im due,
    images s !! id = Some im /\ timer im = Some due /\ (due <= now s)%N.
Proof.
  cbn [step]. intros Hstep.
  destruct (images s !! id) as [im|]; [|discriminate].
  destruct (timer im) as [due|] eqn:Hdue; [|discriminate].
  destruct (due <=? now s)%N eqn:Hle; [|discriminate].
  injection Hstep as <-. split; [reflexivity|].
  exists im, due. repeat split; [exact Hdue|]. now apply N.leb_le.
Qed.

(** C8, as amended. Without an image URL the placeholder is shown at
    once and no load is started. With one, the container holds the
    spinner of the load and its timer is due 5000 ms later. If the load
    fails, the placeholder is shown in place of the spinner. The timeout
    fires no earlier than it is due; if the spinner of the load is still
    in the image container at that moment, the placeholder replaces it
    and the image source is cleared, after which the image's load event
    is never delivered and the image never enters the container; if the
    container no longer holds the spinner, the timeout only retires the
    timer. *)
Theorem image_fallback (browser : Browser) :
  (forall url s,
     truthy url = false ->
     image_nodes (displayImage url s) = [ImagePlaceholder] /\
     images (displayImage url s) = images s) /\
  (forall url s,
     truthy url = true ->
     image_nodes (displayImage url s) = [ImageLoading (List.length (images s))] /\
     images (displayImage url s) !! List.length (images s)
     = Some (mkImage (text_of url) "" false (Some (now s + 5000)%N))) /\
  (forall s id s',
     step browser s (ImageError id) = Some s' ->
     image_nodes s' = [ImagePlaceholder]) /\
  (forall s id s',
     step browser s (TimerDue id) = Some s' ->
     (exists im due,
        images s !! id = Some im /\ timer im = Some due /\ (due <= now s)%N) /\
     (contains (image_nodes s) (ImageLoading id) = true ->
        image_nodes s' = [ImagePlaceholder] /\
        (exists im', images s' !! id = Some im' /\ src im' = "") /\
        forall evs s'',
          run browser s' evs = Some s'' ->
          contains (image_nodes s'') (QuestionImage id) = false /\
          step browser s'' (ImageLoad id) = None) /\
     (contains (image_nodes s) (ImageLoading id) = false ->
        s' = clearTimeout id s)).
Proof.
  split; [|split; [|split]].
  - intros url s Hurl. unfold displayImage. rewrite Hurl. split; reflexivity.
  - intros url s Hurl. unfold displayImage. rewrite Hurl.
    split; [reflexivity|].
    cbn [negb images set_images set_image_nodes image_nodes now].
    now apply list_lookup_middle.
  - intros s id s' Hstep. cbn [step] in Hstep.
    destruct (images s !! id) as [im|]; [|discriminate].
    destruct (negb (settled im)); [|discriminate].
    injection Hstep as <-. reflexivity.
  - intros s id s' Hstep.
    destruct (step_timer _ _ _ _ Hstep) as (-> & im & due & Him & Hdue & Hle).
    split; [eauto|]. split.
    + intros Hloader.
      destruct (timed_out_with_loader id s im Him Hloader) as (Hnodes & Hsrc).
      split; [exact Hnodes|]. split; [exact Hsrc|].
      intros evs s'' Hrun.
      eapply cleared_image_never_shown; [exact Hsrc| |exact Hrun].
      now rewrite Hnodes.
    + apply timed_out_without_loader.
Qed.

Lemma image_fallback_on_timeout :
  let s' := image_timed_out 0 (clearTimeout 0 picture_pending) in
  contains (image_nodes picture_pending) (ImageLoading 0) = true /\
  image_nodes s' = [ImagePlaceholder] /\
  step sample_browser s' (ImageLoad 0) = None.
Proof.
  cbv zeta.
  assert (Hstep : step sample_browser picture_pending (TimerDue 0)
                  = Some (image_timed_out 0 (clearTimeout 0 picture_pending)))
    by reflexivity.
  assert (Hloader : contains (image_nodes picture_pending) (ImageLoading 0) = true)
    by reflexivity.
  destruct (proj2 (proj2 (proj2 (image_fallback sample_browser)))
              picture_pending 0 _ Hstep) as (_ & Hwith & _).
  destruct (Hwith Hloader) as (Hnodes & _ & Hnever).
  split; [exact Hloader|]. split; [exact Hnodes|].
  exact (proj2 (Hnever [] _ eq_refl)).
Defined.

(** C8, as stated, fails: the question with a picture is answered and
    the next question (without one) fetched before the picture's five
    seconds are over. The container no longer holds the spinner of the
    first load, so its timeout leaves the image source as it is, and
    the image, arriving late, is put next to the placeholder. *)
Lemma stale_timeout_keeps_source :
  after sample_browser (page_loaded blank_page)
    [Click StartControl;
     Settle 1 (QuestionReply (Json (QuestionData pictured_question)));
     Click (OptionControl 0);
     Settle 1 (AnswerReply (Json (A.mk true "Nairobi" 1 1)));
     Click NextControl;
     Settle 2 (QuestionReply (Json (QuestionData tokyo_question)));
     Elapse 5000;
     TimerDue 0]
    (fun s =>
       (src <$> images s !! 0) = Some "/static/images/nairobi.jpg" /\
       (settled <$> images s !! 0) = Some false /\
       image_nodes s = [ImagePlaceholder] /\
       after sample_browser s [ImageLoad 0]
         (fun s' => image_nodes s' = [ImagePlaceholder; QuestionImage 0])).
Proof. vm_compute. repeat split. Qed.

(** ** One request at a time *)

Lemma count_after_fetch (P : Request -> bool) (l : list Request) (r : Request) :
  List.length (List.filter P (l ++ [r])%list)
  = List.length (List.filter P l) + (if P r then 1 else 0).
Proof.
  rewrite List.filter_app, List.length_app. cbn [List.filter].
  now destruct (P r).
Qed.

Lemma count_after_settle (P : Request -> bool) (l : list Request) (i : nat) (r : Request) :
  l !! i = Some r ->
  List.length (List.filter P (delete i l)) + (if P r then 1 else 0)
  = List.length (List.filter P l).
Proof.
  revert i. induction l as [|x l IH]; intros [|i] H; try discriminate.
  - injection H as ->. cbn [delete list_delete List.filter].
    destruct (P r); cbn [List.length]; lia.
  - cbn in H. change (delete (S i) (x :: l)) with (x :: delete i l).
    cbn [List.filter]. specialize (IH i H).
    destruct (P x); cbn [List.length]; lia.
Qed.

Lemma loadNextQuestion_idle (s : State) :
  isLoading s = false ->
  inflight (loadNextQuestion s) = (inflight s ++ [GetQuestion])%list /\
  isLoading (loadNextQuestion s) = true /\
  option_buttons (loadNextQuestion s) = [] /\
  is_disabled nextButton (loadNextQuestion s) = true /\
  is_hidden startContainer (loadNextQuestion s) = is_hidden startContainer s.
Proof. intros Hidle. unfold loadNextQuestion. rewrite Hidle. repeat split. Qed.

Lemma selectAnswer_idle (selectedOption : string) (s : State) :
  isLoading s = false ->
  inflight (selectAnswer selectedOption s)
  = (inflight s ++ [CheckAnswer selectedOption])%list /\
  isLoading (selectAnswer selectedOption s) = false /\
  option_buttons (selectAnswer selectedOption s)
  = List.map (with_disabled true) (option_buttons s) /\
  elements (selectAnswer selectedOption s) = elements s.
Proof.
  intros Hidle. unfold selectAnswer. rewrite Hidle. repeat split. exact Hidle.
Qed.

Lemma showHint_frame (s : State) :
  inflight (showHint s) = inflight s /\
  isLoading (showHint s) = isLoading s /\
  option_buttons (showHint s) = option_buttons s /\
  is_disabled nextButton (showHint s) = is_disabled nextButton s /\
  is_hidden startContainer (showHint s) = is_hidden startContainer s.
Proof. unfold showHint. destruct (negb _); repeat split. Qed.

(** What the settling of a question fetch leaves: the busy flag cleared,
    the next button disabled; fresh option buttons and a hidden start
    container when a question arrived, and otherwise the old buttons (or
    none) and the start container as it was. *)
Lemma question_settled_view (r : Reply Payload) (s : State) :
  isLoading (question_settled r s) = false /\
  is_disabled nextButton (question_settled r s) = true /\
  ((exists q, option_buttons (question_settled r s) = List.map option_button (Q.options q) /\
              is_hidden startContainer (question_settled r s) = true) \/
   ((option_buttons (question_settled r s) = option_buttons s \/
     option_buttons (question_settled r s) = []) /\
    is_hidden startContainer (question_settled r s) = is_hidden startContainer s)).
Proof.
  split; [reflexivity|]. split; [reflexivity|].
  unfold question_settled, question_received.
  destruct r as [| |data]; try (right; split; [left|]; reflexivity).
  destruct (truthy (data_error data)); [right; split; [left|]; reflexivity|].
  destruct data as [q|e].
  - left. exists q. unfold displayQuestion.
    cbn [data_image data_options data_question createOptionButtons].
    destruct (truthy (Q.image q)); (split; [reflexivity|apply has_class_add]).
  - right. split; [right|]; reflexivity.
Qed.

Lemma answer_settled_view (selectedOption : string) (r : Reply A.t) (s : State) :
  isLoading (answer_settled selectedOption r s) = isLoading s /\
  questions_in_flight (answer_settled selectedOption r s) = questions_in_flight s /\
  answers_in_flight (answer_settled selectedOption r s) = answers_in_flight s /\
  is_hidden startContainer (answer_settled selectedOption r s)
  = is_hidden startContainer s /\
  (submission_failed r = true ->
   option_buttons (answer_settled selectedOption r s) = option_buttons s /\
   is_disabled nextButton (answer_settled selectedOption r s) = true) /\
  (submission_failed r = false ->
   all_options_disabled (answer_settled selectedOption r s) = true /\
   is_disabled nextButton (answer_settled selectedOption r s) = false).
Proof.
  destruct r as [| |data]; try (repeat split; discriminate).
  split; [reflexivity|]. split; [|split; [|split; [reflexivity|split]]].
  - unfold questions_in_flight.
    change (inflight (answer_settled selectedOption (Json data) s))
      with (inflight s ++ [GetHistory])%list.
    rewrite count_after_fetch. cbn. lia.
  - unfold answers_in_flight.
    change (inflight (answer_settled selectedOption (Json data) s))
      with (inflight s ++ [GetHistory])%list.
    rewrite count_after_fetch. cbn. lia.
  - discriminate.
  - intros _. split; [|reflexivity].
    unfold all_options_disabled. rewrite answer_settled_buttons.
    apply forallb_forall. intros b Hb.
    apply List.in_map_iff in Hb as (b' & <- & _). reflexivity.
Qed.

Lemma history_settled_frame (browser : Browser) (r : Reply H.t) (s : State) :
  inflight (history_settled browser r s) = inflight s /\
  isLoading (history_settled browser r s) = isLoading s /\
  option_buttons (history_settled browser r s) = option_buttons s /\
  is_disabled nextButton (history_settled browser r s) = is_disabled nextButton s /\
  is_hidden startContainer (history_settled browser r s)
  = is_hidden startContainer s.
Proof. destruct r; repeat split. Qed.

Lemma disabled_options_stay (l : list Element) :
  forallb disabled (List.map (with_disabled true) l) = true.
Proof.
  apply forallb_forall. intros b Hb.
  apply List.in_map_iff in Hb as (b' & <- & _). reflexivity.
Qed.

Lemma one_at_a_time_same (s s' : State) :
  questions_in_flight s' = questions_in_flight s ->
  answers_in_flight s' = answers_in_flight s ->
  isLoading s' = isLoading s ->
  all_options_disabled s' = all_options_disabled s ->
  is_disabled nextButton s' = is_disabled nextButton s ->
  is_hidden startContainer s' = is_hidden startContainer s ->
  one_at_a_time s -> one_at_a_time s'.
Proof.
  unfold one_at_a_time. intros -> -> -> -> -> ->. auto.
Qed.

Lemma one_at_a_time_frame (s s' : State) :
  elements s' = elements s ->
  option_buttons s' = option_buttons s ->
  inflight s' = inflight s ->
  isLoading s' = isLoading s ->
  one_at_a_time s -> one_at_a_time s'.
Proof.
  intros He Hb Hi Hl. apply one_at_a_time_same;
    unfold questions_in_flight, answers_in_flight, all_options_disabled,
      is_disabled, is_hidden; congruence.
Qed.

Lemma enabled_option_seen (s : State) (k : nat) (button : Element) :
  option_buttons s !! k = Some button ->
  disabled button = false ->
  all_options_disabled s = false.
Proof.
  intros Hk Hen. unfold all_options_disabled.
  apply not_true_is_false. intros Hall.
  rewrite forallb_forall in Hall.
  apply list_elem_of_lookup_2, list_elem_of_In in Hk.
  specialize (Hall _ Hk). congruence.
Qed.

Section OneAtATime.
Variable browser : Browser.
Hypothesis hidden_out_of_reach : hidden_unclickable browser = true.

Lemma loadNextQuestion_one_at_a_time (s : State) :
  answers_in_flight s = 0 ->
  one_at_a_time s -> one_at_a_time (loadNextQuestion s).
Proof.
  intros Ha Hinv. destruct (isLoading s) eqn:Hidle.
  { unfold loadNextQuestion. now rewrite Hidle. }
  destruct Hinv as (Hle & Hflag & Hguard & Hsub).
  destruct (loadNextQuestion_idle s Hidle) as (Hin & Hl & Hb & Hn & Hh).
  assert (Hq : questions_in_flight s = 0).
  { destruct (questions_in_flight s) as [|[|n]] eqn:E; [reflexivity| |lia].
    destruct Hflag as [_ Hflag]. rewrite Hflag in Hidle by reflexivity. discriminate. }
  assert (Hq' : questions_in_flight (loadNextQuestion s) = 1).
  { unfold questions_in_flight in *. rewrite Hin, count_after_fetch, Hq. reflexivity. }
  assert (Ha' : answers_in_flight (loadNextQuestion s) = 0).
  { unfold answers_in_flight in *. rewrite Hin, count_after_fetch, Ha. reflexivity. }
  assert (Hall : all_options_disabled (loadNextQuestion s) = true).
  { unfold all_options_disabled. now rewrite Hb. }
  unfold one_at_a_time. rewrite Hq', Ha', Hl, Hall.
  repeat split; try lia; intros; try lia.
Qed.

Lemma selectAnswer_one_at_a_time (selectedOption : string) (s : State) :
  all_options_disabled s = false ->
  one_at_a_time s -> one_at_a_time (selectAnswer selectedOption s).
Proof.
  intros Hopen Hinv. destruct (isLoading s) eqn:Hidle.
  { unfold selectAnswer. now rewrite Hidle. }
  destruct Hinv as (Hle & Hflag & Hguard & Hsub).
  destruct (selectAnswer_idle selectedOption s Hidle) as (Hin & Hl & Hb & He).
  destruct (Hguard (or_intror Hopen)) as [Hnext Hstart].
  assert (Ha : answers_in_flight s = 0).
  { destruct (answers_in_flight s) as [|n] eqn:E; [reflexivity|].
    rewrite Hsub in Hopen by lia. discriminate. }
  assert (Hq : questions_in_flight s = 0).
  { destruct (questions_in_flight s) as [|[|n]] eqn:E; [reflexivity| |lia].
    destruct Hflag as [_ Hflag]. rewrite Hflag in Hidle by reflexivity. discriminate. }
  assert (Hq' : questions_in_flight (selectAnswer selectedOption s) = 0).
  { unfold questions_in_flight in *. rewrite Hin, count_after_fetch, Hq. reflexivity. }
  assert (Ha' : answers_in_flight (selectAnswer selectedOption s) = 1).
  { unfold answers_in_flight in *. rewrite Hin, count_after_fetch, Ha. reflexivity. }
  assert (Hall : all_options_disabled (selectAnswer selectedOption s) = true).
  { unfold all_options_disabled. rewrite Hb. apply disabled_options_stay. }
  unfold one_at_a_time, is_disabled, is_hidden. rewrite Hq', Ha', Hl, Hall, He.
  repeat split; try lia; intros; try discriminate; auto.
Qed.

Lemma question_settled_one_at_a_time (r : Reply Payload) (s : State) (i : nat) :
  inflight s !! i = Some GetQuestion ->
  one_at_a_time s ->
  one_at_a_time (question_settled r (set_inflight (delete i (inflight s)) s)).
Proof.
  intros Hreq (Hle & Hflag & Hguard & Hsub).
  set (s0 := set_inflight (delete i (inflight s)) s).
  pose proof (count_after_settle is_question_fetch _ _ _ Hreq) as Hq.
  pose proof (count_after_settle is_answer_submission _ _ _ Hreq) as Ha.
  cbn [is_question_fetch is_answer_submission] in Hq, Ha.
  fold (questions_in_flight s) in Hq. fold (answers_in_flight s) in Ha.
  destruct (question_settled_view r s0) as (Hl & Hn & Hview).
  assert (Hq' : questions_in_flight (question_settled r s0) = 0).
  { unfold questions_in_flight. rewrite question_settled_inflight.
    change (inflight s0) with (delete i (inflight s)). lia. }
  assert (Ha' : answers_in_flight (question_settled r s0) = 0).
  { unfold answers_in_flight. rewrite question_settled_inflight.
    change (inflight s0) with (delete i (inflight s)). lia. }
  unfold one_at_a_time. rewrite Hq', Ha', Hl, Hn.
  repeat split; try lia; try discriminate.
  destruct H as [H|Hopen]; [lia|].
  destruct Hview as [(q & _ & Hh) | ([Hb|Hb] & Hh)]; [exact Hh| |].
  - rewrite Hh. apply Hguard. right.
    unfold all_options_disabled in *. now rewrite Hb in Hopen.
  - unfold all_options_disabled in Hopen. rewrite Hb in Hopen. discriminate.
Qed.

Lemma answer_settled_one_at_a_time
    (selectedOption : string) (r : Reply A.t) (s : State) (i : nat) :
  inflight s !! i = Some (CheckAnswer selectedOption) ->
  one_at_a_time s ->
  one_at_a_time (answer_settled selectedOption r (set_inflight (delete i (inflight s)) s)).
Proof.
  intros Hreq (Hle & Hflag & Hguard & Hsub).
  set (s0 := set_inflight (delete i (inflight s)) s).
  pose proof (count_after_settle is_question_fetch _ _ _ Hreq) as Hq.
  pose proof (count_after_settle is_answer_submission _ _ _ Hreq) as Ha.
  cbn [is_question_fetch is_answer_submission] in Hq, Ha.
  fold (questions_in_flight s) in Hq. fold (answers_in_flight s) in Ha.
  destruct (answer_settled_view selectedOption r s0)
    as (Hl & Hq' & Ha' & Hh & Hfail & Hok).
  change (questions_in_flight s0)
    with (List.length (List.filter is_question_fetch (delete i (inflight s)))) in Hq'.
  change (answers_in_flight s0)
    with (List.length (List.filter is_answer_submission (delete i (inflight s)))) in Ha'.
  assert (Hidle : isLoading s = false).
  { destruct (isLoading s) eqn:E; [|reflexivity].
    destruct Hflag as [Hflag _]. specialize (Hflag eq_refl). lia. }
  unfold one_at_a_time. rewrite Hq', Ha', Hl.
  change (isLoading s0) with (isLoading s). rewrite Hidle.
  repeat split; try lia; try discriminate.
  all: destruct H as [H|Hopen]; [lia|].
  all: destruct (submission_failed r) eqn:Hr;
    [ destruct (Hfail eq_refl) as [Hb _];
      unfold all_options_disabled in Hopen; rewrite Hb in Hopen;
      change (option_buttons s0) with (option_buttons s) in Hopen;
      fold (all_options_disabled s) in Hopen; rewrite Hsub in Hopen by lia;
      discriminate
    | destruct (Hok eq_refl) as [Hall _]; congruence ].
Qed.

End OneAtATime.

Lemma page_loaded_one_at_a_time (els : Elements) : one_at_a_time (page_loaded els).
Proof.
  unfold one_at_a_time. cbn. repeat split; intros; try lia; try discriminate.
Qed.

Section Reachable.
Variable browser : Browser.
Hypothesis hidden_out_of_reach : hidden_unclickable browser = true.

Lemma step_one_at_a_time (s s' : State) (e : Event) :
  one_at_a_time s -> step browser s e = Some s' -> one_at_a_time s'.
Proof.
  intros Hinv Hstep. destruct e as [c|i r|id|id|id|ms]; cbn [step] in Hstep.
  - destruct (clickable browser c s) eqn:Hc; [|discriminate].
    injection Hstep as <-. pose proof Hinv as (Hle & Hflag & Hguard & Hsub).
    destruct c as [| | |k]; cbn [on_click clickable] in *.
    + rewrite hidden_out_of_reach in Hc. cbn [andb] in Hc.
      apply andb_true_iff in Hc as [_ Hc]. apply negb_true_iff in Hc.
      unfold startQuiz. destruct (isLoading s); [exact Hinv|].
      apply loadNextQuestion_one_at_a_time; [|exact Hinv].
      destruct (answers_in_flight s) as [|n] eqn:E; [reflexivity|].
      destruct Hguard as [_ Hh]; [left; lia|]. congruence.
    + apply negb_true_iff in Hc.
      apply loadNextQuestion_one_at_a_time; [|exact Hinv].
      destruct (answers_in_flight s) as [|n] eqn:E; [reflexivity|].
      destruct Hguard as [Hn _]; [left; lia|]. congruence.
    + destruct (showHint_frame s) as (Hi & Hl & Hb & Hn & Hh).
      eapply one_at_a_time_same; [..|exact Hinv];
        unfold questions_in_flight, answers_in_flight, all_options_disabled;
        congruence.
    + destruct (option_buttons s !! k) as [button|] eqn:Hk; [|discriminate].
      apply negb_true_iff in Hc.
      apply selectAnswer_one_at_a_time; [|exact Hinv].
      eapply enabled_option_seen; eauto.
  - destruct (inflight s !! i) as [[| sel |]|] eqn:Hreq; destruct r as [r|r|r];
      try discriminate; injection Hstep as <-.
    + now apply question_settled_one_at_a_time.
    + now apply answer_settled_one_at_a_time.
    + destruct (history_settled_frame browser r
                  (set_inflight (delete i (inflight s)) s))
        as (Hi & Hl & Hb & Hn & Hh).
      pose proof (count_after_settle is_question_fetch _ _ _ Hreq) as Hq.
      pose proof (count_after_settle is_answer_submission _ _ _ Hreq) as Ha.
      cbn [is_question_fetch is_answer_submission] in Hq, Ha.
      eapply one_at_a_time_same; [..|exact Hinv]; try assumption.
      * unfold questions_in_flight. rewrite Hi. cbn [inflight set_inflight]. lia.
      * unfold answers_in_flight. rewrite Hi. cbn [inflight set_inflight]. lia.
      * unfold all_options_disabled. now rewrite Hb.
  - destruct (images s !! id) as [im|]; [|discriminate].
    destruct (negb (settled im) && negb (String.eqb (src im) "")); [|discriminate].
    injection Hstep as <-. unfold seq.
    destruct (img_onload_frame id (mark_settled id s)) as (He & Hb & Hi & Hl & _).
    eapply one_at_a_time_frame; [exact He|exact Hb|exact Hi|exact Hl|exact Hinv].
  - destruct (images s !! id) as [im|]; [|discriminate].
    destruct (negb (settled im)); [|discriminate].
    injection Hstep as <-. unfold seq.
    destruct (img_onerror_frame id (mark_settled id s)) as (He & Hb & Hi & Hl & _).
    eapply one_at_a_time_frame; [exact He|exact Hb|exact Hi|exact Hl|exact Hinv].
  - destruct (images s !! id) as [im|]; [|discriminate].
    destruct (timer im) as [due|]; [|discriminate].
    destruct (due <=? now s)%N; [|discriminate].
    injection Hstep as <-. unfold seq.
    destruct (image_timed_out_frame id (clearTimeout id s)) as (He & Hb & Hi & Hl & _).
    eapply one_at_a_time_frame; [exact He|exact Hb|exact Hi|exact Hl|exact Hinv].
  - injection Hstep as <-. exact Hinv.
Qed.

Lemma run_one_at_a_time (evs : list Event) :
  forall s s', one_at_a_time s -> run browser s evs = Some s' -> one_at_a_time s'.
Proof.
  induction evs as [|e rest IH]; intros s s' Hinv Hrun; cbn [run] in Hrun.
  - now injection Hrun as <-.
  - destruct (step browser s e) as [s1|] eqn:Hstep; [|discriminate].
    eapply IH; [|exact Hrun]. eapply step_one_at_a_time; eauto.
Qed.

End Reachable.

Lemma run_app (browser : Browser) (evs1 evs2 : list Event) :
  forall s,
    run browser s (evs1 ++ evs2)%list
    = match run browser s evs1 with
      | Some s1 => run browser s1 evs2
      | None => None
      end.
Proof.
  induction evs1 as [|e rest IH]; intros s; [reflexivity|].
  cbn [run app]. destruct (step browser s e); [apply IH|reflexivity].
Qed.

(** C1, as amended. On a page whose start button cannot be clicked
    while its container is hidden, no run of events from the loaded
    page ever has two question fetches, two answer submissions, or one
    of each in flight. Each of the handlers start, next question and
    select answer checks the busy flag first and returns at once,
    changing nothing, when it is set. The flag is set exactly while a
    question fetch is in flight and is cleared whenever the fetch
    settles, whatever the outcome; an answer submission neither sets
    nor clears it. *)
Theorem one_request_at_a_time (browser : Browser) :
  hidden_unclickable browser = true ->
  (forall els evs s,
     run browser (page_loaded els) evs = Some s ->
     questions_in_flight s + answers_in_flight s <= 1 /\
     (isLoading s = true <-> questions_in_flight s = 1)) /\
  (forall s,
     isLoading s = true ->
     startQuiz s = s /\ loadNextQuestion s = s /\
     forall selectedOption, selectAnswer selectedOption s = s) /\
  (forall r s, isLoading (question_settled r s) = false) /\
  (forall selectedOption r s,
     isLoading (answer_settled selectedOption r s) = isLoading s).
Proof.
  intros Hhidden. split; [|split; [|split]].
  - intros els evs s Hrun.
    destruct (run_one_at_a_time browser Hhidden evs _ _
                (page_loaded_one_at_a_time els) Hrun) as (Hle & Hflag & _).
    auto.
  - intros s Hbusy. unfold startQuiz, loadNextQuestion, selectAnswer.
    rewrite Hbusy. auto.
  - reflexivity.
  - intros o r s. destruct r; reflexivity.
Qed.

Lemma one_request_at_a_time_second_cycle :
  let s0 := page_loaded blank_page in
  let s4 := answer_settled "Osaka" (Json (A.mk false "Tokyo" 0 1))
              (set_inflight (inflight s0) (submitted s0 tokyo_question "Osaka")) in
  questions_in_flight (loadNextQuestion s4)
  + answers_in_flight (loadNextQuestion s4) <= 1 /\
  (isLoading (loadNextQuestion s4) = true
   <-> questions_in_flight (loadNextQuestion s4) = 1).
Proof.
  cbv zeta.
  set (s0 := page_loaded blank_page).
  set (data := A.mk false "Tokyo" 0 1).
  set (s4 := answer_settled "Osaka" (Json data)
               (set_inflight (inflight s0) (submitted s0 tokyo_question "Osaka"))).
  assert (Hnext : clickable sample_browser NextControl s4 = true)
    by (vm_compute; reflexivity).
  assert (Hrun : run sample_browser (page_loaded blank_page)
                   (question_cycle s0 tokyo_question 1 (Json data)
                      ++ [Click NextControl])%list
                 = Some (loadNextQuestion s4)).
  { fold s0. rewrite run_app. unfold question_cycle. cbn [run].
    rewrite (cycle_click_next sample_browser s0 eq_refl),
      (cycle_question_arrives sample_browser s0 tokyo_question eq_refl),
      (cycle_pick sample_browser s0 tokyo_question 1 "Osaka" eq_refl),
      (cycle_submission_settles sample_browser s0 tokyo_question "Osaka").
    fold s4. now rewrite (cycle_click_next sample_browser s4 Hnext). }
  exact (proj1 (one_request_at_a_time sample_browser eq_refl)
           blank_page _ _ Hrun).
Defined.

(** C1, as stated, fails: the busy flag does not keep a question fetch
    and a submission apart, because [selectAnswer] never sets it. Where
    a click reaches the start button although its container is hidden,
    the start handler finds the flag clear while a submission is in
    flight and starts a fetch; when that fetch has brought new options,
    a second submission joins the first. *)
Remark overlap_when_hidden_start_is_clickable :
  after (mkBrowser (fun t => t) false) (page_loaded blank_page)
    [Click StartControl;
     Settle 1 (QuestionReply (Json (QuestionData tokyo_question)));
     Click (OptionControl 1);
     Click StartControl]
    (fun s =>
       questions_in_flight s = 1 /\ answers_in_flight s = 1 /\
       is_hidden startContainer s = true /\
       after (mkBrowser (fun t => t) false) s
         [Settle 2 (QuestionReply (Json (QuestionData tokyo_question)));
          Click (OptionControl 0)]
         (fun s' => answers_in_flight s' = 2 /\ isLoading s' = false)).
Proof. vm_compute. repeat split. Qed.

(** * Further properties of the script *)

(** ** Loading and displaying a question *)

(** X1. While a question is being fetched. [loadNextQuestion] on an idle
    page sets the busy flag and puts one question fetch in flight; the
    start, hint and next buttons are all disabled, the question panel
    shows "Loading question...", the result panel and the hint text are
    hidden, the result text, the options of the previous question are
    gone and the image placeholder is shown. The current question
    itself is kept until a new one arrives. *)
Theorem loading_state (s : State) :
  isLoading s = false ->
  let s' := loadNextQuestion s in
  isLoading s' = true /\
  inflight s' = (inflight s ++ [GetQuestion])%list /\
  is_disabled startButton s' = true /\
  is_disabled hintButton s' = true /\
  is_disabled nextButton s' = true /\
  text questionText s' = "Loading question..." /\
  is_hidden questionContainer s' = false /\
  is_hidden resultContainer s' = true /\
  is_hidden hintText s' = true /\
  text resultText s' = "" /\
  option_buttons s' = [] /\
  image_nodes s' = [ImagePlaceholder] /\
  currentQuestion s' = currentQuestion s.
Proof.
  intros Hidle. cbv zeta. unfold loadNextQuestion. rewrite Hidle.
  repeat split.
  - apply has_class_remove.
  - apply has_class_add.
  - apply has_class_add.
Qed.

Lemma loading_state_on_load :
  is_disabled startButton (loadNextQuestion (page_loaded blank_page)) = true /\
  text questionText (loadNextQuestion (page_loaded blank_page)) = "Loading question...".
Proof.
  pose proof (loading_state (page_loaded blank_page) eq_refl) as H.
  cbv zeta in H. destruct H as (_ & _ & Hs & _ & _ & Ht & _).
  exact (conj Hs Ht).
Defined.

(** X2. When a question arrives. Whatever the page showed before, it then
    holds the question as the current one, shows its text, and has one
    option button per option of the payload, in the payload's order,
    each enabled, unmarked and labelled with its option. The start
    container is hidden, the question panel visible, the result panel
    and the hint text hidden; start and hint are enabled, next is
    disabled, the busy flag is cleared. The image container holds the
    spinner of a new load when the payload has an image, and the
    placeholder when it has none. *)
Theorem question_displayed (q : Q.t) (s : State) :
  let s' := question_settled (Json (QuestionData q)) s in
  currentQuestion s' = Some (QuestionData q) /\
  text questionText s' = Q.question q /\
  option_buttons s' = List.map option_button (Q.options q) /\
  List.map marking (option_buttons s')
  = List.map (fun o => (o, false, false)) (Q.options q) /\
  all_options_disabled s' = (Nat.eqb (List.length (Q.options q)) 0) /\
  is_hidden startContainer s' = true /\
  is_hidden questionContainer s' = false /\
  is_hidden resultContainer s' = true /\
  is_hidden hintText s' = true /\
  is_disabled startButton s' = false /\
  is_disabled hintButton s' = false /\
  is_disabled nextButton s' = true /\
  isLoading s' = false /\
  image_nodes s'
  = (if truthy (Q.image q) then [ImageLoading (List.length (images s))]
     else [ImagePlaceholder]).
Proof.
  cbv zeta.
  assert (Hb : option_buttons (question_settled (Json (QuestionData q)) s)
               = List.map option_button (Q.options q))
    by apply question_settled_buttons.
  split; [now rewrite question_settled_question|].
  unfold all_options_disabled. rewrite Hb.
  unfold question_settled, question_received, displayQuestion.
  cbn [data_error truthy data_image data_options data_question createOptionButtons].
  set (s0 := set_text questionText (text_of (Some (Q.question q)))
               (set_currentQuestion (Some (QuestionData q)) s)).
  assert (He : forall id,
             elements (if truthy (Q.image q) then displayImage (Q.image q) s0
                       else showImagePlaceholder s0) id
             = elements s0 id).
  { intros id. destruct (truthy (Q.image q)); [|reflexivity].
    now destruct (displayImage_frame (Q.image q) s0) as (-> & _). }
  split.
  { unfold text, catch, seq, enableButtons, resetHint, set_disabled, classList_add,
      classList_remove, update, seq.
    cbn [elements set_elements set_isLoading set_option_buttons same_element
         element_index Nat.eqb].
    now rewrite He. }
  split; [reflexivity|]. split.
  { rewrite List.map_map. reflexivity. }
  split.
  { destruct (Q.options q); reflexivity. }
  split; [apply has_class_add|]. split; [apply has_class_remove|].
  split; [apply has_class_add|]. split.
  { unfold is_hidden, catch, seq, enableButtons, resetHint, set_disabled,
      classList_add, classList_remove, update, seq.
    cbn [elements set_elements set_isLoading set_option_buttons same_element
         element_index Nat.eqb].
    apply has_class_add. }
  repeat split.
  unfold catch, seq. cbn [image_nodes].
  change (image_nodes
            (if truthy (Q.image q) then displayImage (Q.image q) s0
             else showImagePlaceholder s0)
          = if truthy (Q.image q) then [ImageLoading (List.length (images s))]
            else [ImagePlaceholder]).
  destruct (truthy (Q.image q)) eqn:Hpic; [|reflexivity].
  unfold displayImage. rewrite Hpic. reflexivity.
Qed.

(** X3. The hint of a new question. Once a question with a hint has arrived,
    a click on the hint control is delivered and shows the hint of that
    question, whatever hint text or visibility an earlier question left
    behind; the control is disabled by the click. *)
Theorem hint_of_new_question (browser : Browser) (q : Q.t) (s : State) :
  truthy (Q.hint q) = true ->
  let s' := question_settled (Json (QuestionData q)) s in
  step browser s' (Click HintControl) = Some (showHint s') /\
  text hintText (showHint s') = text_of (Q.hint q) /\
  is_hidden hintText (showHint s') = false /\
  is_disabled hintButton (showHint s') = true.
Proof.
  intros Hhint. cbv zeta.
  set (s' := question_settled (Json (QuestionData q)) s).
  assert (Hq : currentQuestion s' = Some (QuestionData q))
    by (unfold s'; now rewrite question_settled_question).
  assert (Hh : truthy (currentQuestion s' ≫= data_hint) = true)
    by (rewrite Hq; exact Hhint).
  split; [reflexivity|].
  destruct (showHint_reveals s' Hh) as (Ht & Hv & Hd).
  rewrite Ht, Hq. auto.
Qed.

Lemma hint_of_new_question_tokyo :
  text hintText
    (showHint (question_settled (Json (QuestionData tokyo_question))
                 (page_loaded blank_page)))
  = "This city hosted the 2020 Summer Olympics.".
Proof.
  exact (proj1 (proj2 (hint_of_new_question sample_browser tokyo_question
                         (page_loaded blank_page) eq_refl))).
Defined.

(** ** Feedback on an answer *)

Lemma feedback_incorrect (data : A.t) (selectedOption : string) (b : Element) :
  has_class "incorrect-option" b = false ->
  has_class "incorrect-option" (feedback data selectedOption b)
  = String.eqb (textContent b) selectedOption
    && negb (String.eqb (textContent b) (A.correct_answer data)).
Proof.
  intros Hfresh. unfold feedback. cbv zeta.
  destruct (String.eqb (textContent b) (A.correct_answer data));
    destruct (String.eqb (textContent b) selectedOption);
    destruct (A.is_correct data); cbn [andb negb];
    rewrite ?has_class_with_disabled, ?has_class_add, ?has_class_add_other,
      ?has_class_with_disabled, ?has_class_add, ?has_class_add_other by reflexivity;
    try reflexivity; try exact Hfresh.
Qed.

(** X4. The marking of the picked option. After a question has been fetched,
    an option picked and the submission answered, the controls marked
    [incorrect-option] are exactly those whose text is the picked option
    and differs from the reported correct answer; no control carries
    both markings, every control is disabled, and the result panel is
    visible with the message for the reply. The reply's [is_correct]
    only selects the message: the markings are decided by the texts. *)
Theorem incorrect_marking_follows_choice
    (s0 : State) (q : Q.t) (selectedOption : string) (data : A.t) :
  let s := answer_settled selectedOption (Json data)
             (selectAnswer selectedOption
                (question_settled (Json (QuestionData q)) (loadNextQuestion s0))) in
  List.Forall
    (fun button =>
       has_class "incorrect-option" button
       = String.eqb (textContent button) selectedOption
         && negb (String.eqb (textContent button) (A.correct_answer data)) /\
       has_class "correct-option" button && has_class "incorrect-option" button = false /\
       disabled button = true)
    (option_buttons s) /\
  text resultText s
  = (if A.is_correct data
     then "✅ Correct! The answer is " +:+ A.correct_answer data +:+ "."
     else "❌ Incorrect. The correct answer is " +:+ A.correct_answer data +:+ ".") /\
  is_hidden resultContainer s = false /\
  is_disabled hintButton s = true /\
  is_disabled nextButton s = false.
Proof.
  cbv zeta. rewrite answered_buttons. split.
  - rewrite !List.map_map. apply List.Forall_forall. intros b Hb.
    apply List.in_map_iff in Hb as (o & <- & _).
    rewrite feedback_incorrect, feedback_correct, feedback_text by reflexivity.
    cbn [with_disabled option_button textContent].
    split; [reflexivity|]. split; [|reflexivity].
    destruct (String.eqb o (A.correct_answer data)); [|reflexivity].
    cbn. now rewrite andb_false_r.
  - split; [reflexivity|]. split; [apply has_class_remove|]. split; reflexivity.
Qed.

(** Below [2^53] a number is shown with all its decimal digits. *)
Lemma number_text_safe (n : N) : (n < 2 ^ 53)%N -> number_text n = pretty n.
Proof.
  intros Hn. unfold number_text.
  apply N.ltb_lt in Hn. now rewrite Hn.
Qed.

(** Beyond, it is shown as the double it is read as: rounded from
    [2^53] on, with an exponent from [10^21] on. *)
Lemma number_text_large :
  number_text (2 ^ 53 + 1) = "9007199254740992" /\
  number_text (2 ^ 53 + 3) = "9007199254740996" /\
  number_text (10 ^ 21) = "1e+21" /\
  number_text 123456789012345678901234567890 = "1.2345678901234568e+29" /\
  number_text (2 ^ 1024) = "Infinity".
Proof. vm_compute. repeat split. Qed.

(** X5. A submission that succeeds. In a question cycle whose submission is
    answered, every option control ends up disabled and the next
    control is enabled by exactly one transition; the page is then idle
    with the next control clickable, so that another cycle can start,
    and the only request the cycle leaves in flight is the history
    fetch it started. The score and total of the reply, when below
    [2^53], are on display in decimal. *)
Theorem answered_cycle_is_ready_for_next
    (browser : Browser) (s : State) (q : Q.t) (k : nat) (o : string) (data : A.t) :
  isLoading s = false ->
  clickable browser NextControl s = true ->
  Q.options q !! k = Some o ->
  (A.score data < 2 ^ 53)%N ->
  (A.total_questions data < 2 ^ 53)%N ->
  exists s',
    run browser s (question_cycle s q k (Json data)) = Some s' /\
    all_options_disabled s' = true /\
    next_enablings browser s (question_cycle s q k (Json data)) = 1 /\
    isLoading s' = false /\
    clickable browser NextControl s' = true /\
    inflight s' = (inflight s ++ [GetHistory])%list /\
    text scoreDisplay s' = pretty (A.score data) /\
    text totalQuestionsDisplay s' = pretty (A.total_questions data).
Proof.
  intros Hidle Hnext Hpick Hscore Htotal. unfold question_cycle.
  exists (answer_settled o (Json data) (set_inflight (inflight s) (submitted s q o))).
  cbn [run next_enablings].
  rewrite (cycle_click_next browser s Hnext),
    (cycle_question_arrives browser s q Hidle),
    (cycle_pick browser s q k o Hpick),
    (cycle_submission_settles browser s q o).
  rewrite (cycle_next_disabled_s1 s Hidle).
  split; [reflexivity|]. split.
  { unfold all_options_disabled. rewrite answer_settled_buttons.
    apply forallb_forall. intros b Hb.
    apply List.in_map_iff in Hb as (b' & <- & _). reflexivity. }
  split.
  { change (is_disabled nextButton (asked s q)) with true.
    change (is_disabled nextButton (submitted s q o)) with true.
    change (is_disabled nextButton
              (answer_settled o (Json data)
                 (set_inflight (inflight s) (submitted s q o)))) with false.
    cbn. now rewrite !andb_false_r. }
  split; [reflexivity|]. split; [reflexivity|]. split; [reflexivity|]. split.
  - transitivity (number_text (A.score data));
      [reflexivity|now apply number_text_safe].
  - transitivity (number_text (A.total_questions data));
      [reflexivity|now apply number_text_safe].
Qed.

Lemma answered_cycle_is_ready_for_next_tokyo :
  exists s',
    run sample_browser (page_loaded blank_page)
        (question_cycle (page_loaded blank_page) tokyo_question 2
           (Json (A.mk true "Tokyo" 1 1))) = Some s' /\
    all_options_disabled s' = true /\
    next_enablings sample_browser (page_loaded blank_page)
      (question_cycle (page_loaded blank_page) tokyo_question 2
         (Json (A.mk true "Tokyo" 1 1))) = 1 /\
    isLoading s' = false /\
    clickable sample_browser NextControl s' = true /\
    inflight s' = (inflight (page_loaded blank_page) ++ [GetHistory])%list /\
    text scoreDisplay s' = pretty (A.score (A.mk true "Tokyo" 1 1)) /\
    text totalQuestionsDisplay s' = pretty (A.total_questions (A.mk true "Tokyo" 1 1)).
Proof.
  apply (answered_cycle_is_ready_for_next sample_browser (page_loaded blank_page)
           tokyo_question 2 "Tokyo" (A.mk true "Tokyo" 1 1)); reflexivity.
Defined.

(** ** History replies *)

Lemma history_reply_effect
    (browser : Browser) (s : State) (i : nat) (r : Reply H.t) :
  inflight s !! i = Some GetHistory ->
  exists s',
    step browser s (Settle i (HistoryReply r)) = Some s' /\
    inflight s' = delete i (inflight s) /\
    currentQuestion s' = currentQuestion s /\
    isLoading s' = isLoading s /\
    option_buttons s' = option_buttons s /\
    image_nodes s' = image_nodes s /\
    (forall id,
       id <> scoreDisplay -> id <> totalQuestionsDisplay ->
       elements s' id = elements s id) /\
    match r with
    | Json data =>
        history_html s'
        = (if decide (H.history data = []) then no_history
           else join (history_items browser data)) /\
        ((H.score data < 2 ^ 53)%N ->
         text scoreDisplay s' = pretty (H.score data)) /\
        ((H.total_questions data < 2 ^ 53)%N ->
         text totalQuestionsDisplay s' = pretty (H.total_questions data))
    | _ =>
        history_html s' = history_failed /\
        text scoreDisplay s' = text scoreDisplay s /\
        text totalQuestionsDisplay s' = text totalQuestionsDisplay s
    end.
Proof.
  intros Hreq. eexists. split.
  { cbn [step]. rewrite Hreq. reflexivity. }
  destruct r as [| |data].
  - repeat split.
  - repeat split.
  - split; [reflexivity|]. split; [reflexivity|]. split; [reflexivity|].
    split; [reflexivity|]. split; [reflexivity|]. split.
    { intros id H1 H2. destruct id; try reflexivity; congruence. }
    split; [|split].
    + unfold history_settled, renderHistory, seq.
      cbn [history_html set_history_html updateScoreDisplays set_text update
           set_elements seq].
      destruct (H.history data); reflexivity.
    + intros Hscore. transitivity (number_text (H.score data));
        [reflexivity|now apply number_text_safe].
    + intros Htotal. transitivity (number_text (H.total_questions data));
        [reflexivity|now apply number_text_safe].
Qed.

(** X6. A history reply is local. Whatever [/get_history] answers, the reply
    is taken off the requests in flight and leaves the current question,
    the busy flag, the option and image containers and every element
    other than the two score displays as they were. A payload puts its
    score and total into the displays and its rendering into the
    history panel; a failure (rejected request or a response that is not
    ok) puts the inline error note into the panel and leaves the
    displays alone. The score and total are shown in decimal when they
    are below [2^53]. *)
Theorem history_reply_is_local
    (browser : Browser) (s : State) (i : nat) (r : Reply H.t) :
  inflight s !! i = Some GetHistory ->
  exists s',
    step browser s (Settle i (HistoryReply r)) = Some s' /\
    inflight s' = delete i (inflight s) /\
    currentQuestion s' = currentQuestion s /\
    isLoading s' = isLoading s /\
    option_buttons s' = option_buttons s /\
    image_nodes s' = image_nodes s /\
    (forall id,
       id <> scoreDisplay -> id <> totalQuestionsDisplay ->
       elements s' id = elements s id) /\
    match r with
    | Json data =>
        history_html s'
        = (if decide (H.history data = []) then no_history
           else join (history_items browser data)) /\
        ((H.score data < 2 ^ 53)%N ->
         text scoreDisplay s' = pretty (H.score data)) /\
        ((H.total_questions data < 2 ^ 53)%N ->
         text totalQuestionsDisplay s' = pretty (H.total_questions data))
    | _ =>
        history_html s' = history_failed /\
        text scoreDisplay s' = text scoreDisplay s /\
        text totalQuestionsDisplay s' = text totalQuestionsDisplay s
    end.
Proof. apply history_reply_effect. Qed.

Lemma history_reply_is_local_on_load :
  exists s',
    step sample_browser (page_loaded blank_page) (Settle 0 (HistoryReply NotOk))
    = Some s' /\
    history_html s' = history_failed /\
    inflight s' = [].
Proof.
  destruct (history_reply_is_local sample_browser (page_loaded blank_page) 0 NotOk
              eq_refl) as (s' & Hstep & Hin & _ & _ & _ & _ & _ & Hhtml & _).
  exists s'. split; [exact Hstep|]. split; [exact Hhtml|]. exact Hin.
Defined.

(** X7. The last history reply wins. With two history fetches in flight (the
    one of the page load and the one a submission starts, say), if the
    reply to the later request arrives first and the reply to the
    earlier request after it, the panel and the score displays end up
    showing the earlier request's payload (its score and total, below
    [2^53], in decimal): replies are applied in the order they arrive,
    not in the order they were asked for. *)
Theorem last_history_reply_wins
    (browser : Browser) (s : State) (i j : nat) (earlier later : H.t) :
  i < j ->
  inflight s !! i = Some GetHistory ->
  inflight s !! j = Some GetHistory ->
  (H.score earlier < 2 ^ 53)%N ->
  (H.total_questions earlier < 2 ^ 53)%N ->
  exists s',
    run browser s [Settle j (HistoryReply (Json later));
                   Settle i (HistoryReply (Json earlier))] = Some s' /\
    history_html s'
    = (if decide (H.history earlier = []) then no_history
       else join (history_items browser earlier)) /\
    text scoreDisplay s' = pretty (H.score earlier) /\
    text totalQuestionsDisplay s' = pretty (H.total_questions earlier).
Proof.
  intros Hlt Hi Hj Hscore' Htotal'.
  destruct (history_reply_effect browser s j (Json later) Hj)
    as (s1 & Hstep1 & Hin1 & _).
  assert (Hi1 : inflight s1 !! i = Some GetHistory).
  { rewrite Hin1, list_lookup_delete_lt by exact Hlt. exact Hi. }
  destruct (history_reply_effect browser s1 i (Json earlier) Hi1)
    as (s2 & Hstep2 & _ & _ & _ & _ & _ & _ & Hhtml & Hscore & Htotal).
  exists s2. cbn [run]. rewrite Hstep1, Hstep2. auto.
Qed.

Lemma last_history_reply_wins_example :
  exists s',
    run sample_browser (loadHistory (page_loaded blank_page))
        [Settle 1 (HistoryReply (Json (H.mk [] 3 4)));
         Settle 0 (HistoryReply (Json (H.mk [] 2 3)))] = Some s' /\
    text scoreDisplay s' = pretty (H.score (H.mk [] 2 3)).
Proof.
  destruct (last_history_reply_wins sample_browser
              (loadHistory (page_loaded blank_page)) 0 1
              (H.mk [] 2 3) (H.mk [] 3 4)
              ltac:(lia) eq_refl eq_refl eq_refl eq_refl)
    as (s' & Hrun & _ & Hscore & _).
  exists s'. split; [exact Hrun|exact Hscore].
Defined.

(** ** Options, once disabled *)

Lemma question_settled_without_question (r : Reply Payload) (s : State) :
  (forall q, r <> Json (QuestionData q)) ->
  option_buttons (question_settled r s) = option_buttons s \/
  option_buttons (question_settled r s) = [].
Proof.
  intros Hr. unfold question_settled, question_received.
  destruct r as [| |[q|e]]; try (left; reflexivity).
  - now destruct (Hr q).
  - cbn [data_error]. destruct (truthy (Some e)); [left|right]; reflexivity.
Qed.

(** X8. Options stay disabled until a new question is displayed. From a page
    on which every option control is disabled (an answer has been
    submitted, or there are no options), every event other than the
    arrival of a question leads to a page on which every option control
    is disabled again: no click, reply, failure, image or timer event
    makes an answered question answerable again. *)
Theorem options_stay_disabled
    (browser : Browser) (s s' : State) (e : Event) :
  all_options_disabled s = true ->
  brings_question e = false ->
  step browser s e = Some s' ->
  all_options_disabled s' = true.
Proof.
  intros Hall Hev Hstep. unfold all_options_disabled in *.
  destruct e as [c|i r|id|id|id|ms]; cbn [step] in Hstep.
  - destruct (clickable browser c s); [|discriminate].
    injection Hstep as <-. destruct c as [| | |k]; cbn [on_click].
    + unfold startQuiz, loadNextQuestion. destruct (isLoading s); [exact Hall|reflexivity].
    + unfold loadNextQuestion. destruct (isLoading s); [exact Hall|reflexivity].
    + now destruct (showHint_frame s) as (_ & _ & -> & _).
    + destruct (option_buttons s !! k); [|exact Hall].
      unfold selectAnswer. destruct (isLoading s); [exact Hall|].
      apply disabled_options_stay.
  - destruct (inflight s !! i) as [[| sel |]|]; destruct r as [r|r|r];
      try discriminate; injection Hstep as <-.
    + assert (Hr : forall q, r <> Json (QuestionData q)).
      { intros q ->. discriminate. }
      destruct (question_settled_without_question r
                  (set_inflight (delete i (inflight s)) s) Hr) as [-> | ->];
        [exact Hall|reflexivity].
    + destruct r as [| |data]; try exact Hall.
      rewrite answer_settled_buttons.
      apply forallb_forall. intros b Hb.
      apply List.in_map_iff in Hb as (b' & <- & _). reflexivity.
    + now destruct r.
  - destruct (images s !! id) as [im|]; [|discriminate].
    destruct (negb (settled im) && negb (String.eqb (src im) "")); [|discriminate].
    injection Hstep as <-. unfold seq.
    now destruct (img_onload_frame id (mark_settled id s)) as (_ & -> & _).
  - destruct (images s !! id) as [im|]; [|discriminate].
    destruct (negb (settled im)); [|discriminate].
    injection Hstep as <-. unfold seq.
    now destruct (img_onerror_frame id (mark_settled id s)) as (_ & -> & _).
  - destruct (images s !! id) as [im|]; [|discriminate].
    destruct (timer im) as [due|]; [|discriminate].
    destruct (due <=? now s)%N; [|discriminate].
    injection Hstep as <-. unfold seq.
    now destruct (image_timed_out_frame id (clearTimeout id s)) as (_ & -> & _).
  - now injection Hstep as <-.
Qed.

Lemma options_stay_disabled_after_pick :
  let s := submitted (page_loaded blank_page) tokyo_question "Osaka" in
  all_options_disabled
    (answer_settled "Osaka" NotOk (set_inflight (delete 1 (inflight s)) s))
  = true.
Proof.
  cbv zeta.
  set (s := submitted (page_loaded blank_page) tokyo_question "Osaka").
  assert (Hreq : inflight s !! 1 = Some (CheckAnswer "Osaka"))
    by (vm_compute; reflexivity).
  apply (options_stay_disabled sample_browser s _ (Settle 1 (AnswerReply NotOk))).
  - vm_compute. reflexivity.
  - reflexivity.
  - cbn [step]. rewrite Hreq. reflexivity.
Defined.

(** ** After a failure *)

Lemma question_settled_hides_start (q : Q.t) (s : State) :
  is_hidden startContainer (question_settled (Json (QuestionData q)) s) = true.
Proof.
  destruct (question_settled_view (Json (QuestionData q)) s)
    as (_ & _ & [(q' & _ & Hh) | (Hb & Hh)]); [exact Hh|].
  unfold question_settled, question_received, displayQuestion.
  cbn [data_error truthy data_image data_options data_question createOptionButtons].
  destruct (truthy (Q.image q)); apply has_class_add.
Qed.

Lemma request_in_flight_counted (P : Request -> bool) (l : list Request)
    (i : nat) (r : Request) :
  l !! i = Some r -> P r = true -> 1 <= List.length (List.filter P l).
Proof.
  intros Hl Hr. pose proof (count_after_settle P l i r Hl) as H.
  rewrite Hr in H. lia.
Qed.

Lemma dead_end_same (s s' : State) :
  questions_in_flight s' = questions_in_flight s ->
  answers_in_flight s' = answers_in_flight s ->
  all_options_disabled s' = all_options_disabled s ->
  is_disabled nextButton s' = is_disabled nextButton s ->
  is_hidden startContainer s' = is_hidden startContainer s ->
  dead_end s -> dead_end s'.
Proof. unfold dead_end. intros -> -> -> -> ->. auto. Qed.

Lemma dead_end_frame (s s' : State) :
  elements s' = elements s ->
  option_buttons s' = option_buttons s ->
  inflight s' = inflight s ->
  dead_end s -> dead_end s'.
Proof.
  intros He Hb Hi. apply dead_end_same;
    unfold questions_in_flight, answers_in_flight, all_options_disabled,
      is_disabled, is_hidden; congruence.
Qed.

Section DeadEnd.
Variable browser : Browser.
Hypothesis hidden_out_of_reach : hidden_unclickable browser = true.

Lemma step_dead_end (s s' : State) (e : Event) :
  dead_end s -> step browser s e = Some s' ->
  dead_end s' /\ currentQuestion s' = currentQuestion s /\ isLoading s' = isLoading s.
Proof.
  intros Hdead Hstep. pose proof Hdead as (Hq & Ha & Hn & Hh & Hall).
  destruct e as [c|i r|id|id|id|ms]; cbn [step] in Hstep.
  - destruct (clickable browser c s) eqn:Hc; [|discriminate].
    injection Hstep as <-. destruct c as [| | |k]; cbn [on_click clickable] in *.
    + rewrite hidden_out_of_reach, Hh in Hc. cbn in Hc.
      rewrite andb_false_r in Hc. discriminate.
    + rewrite Hn in Hc. discriminate.
    + destruct (showHint_frame s) as (Hi & Hl & Hb & Hn' & Hh').
      split; [|split; [|exact Hl]].
      * eapply dead_end_same; [..|exact Hdead];
          unfold questions_in_flight, answers_in_flight, all_options_disabled;
          congruence.
      * unfold showHint.
        now destruct (negb (truthy (currentQuestion s ≫= data_hint))).
    + destruct (option_buttons s !! k) as [button|] eqn:Hk; [|discriminate].
      apply negb_true_iff in Hc.
      rewrite (enabled_option_seen s k button Hk Hc) in Hall. discriminate.
  - destruct (inflight s !! i) as [[| sel |]|] eqn:Hreq; destruct r as [r|r|r];
      try discriminate; injection Hstep as <-.
    + pose proof (request_in_flight_counted is_question_fetch _ _ _ Hreq eq_refl) as H.
      fold (questions_in_flight s) in H. lia.
    + pose proof (request_in_flight_counted is_answer_submission _ _ _ Hreq eq_refl) as H.
      fold (answers_in_flight s) in H. lia.
    + destruct (history_settled_frame browser r
                  (set_inflight (delete i (inflight s)) s))
        as (Hi & Hl & Hb & Hn' & Hh').
      pose proof (count_after_settle is_question_fetch _ _ _ Hreq) as Hq'.
      pose proof (count_after_settle is_answer_submission _ _ _ Hreq) as Ha'.
      cbn [is_question_fetch is_answer_submission] in Hq', Ha'.
      split; [|split; [now destruct r|exact Hl]].
      eapply dead_end_same; [..|exact Hdead]; try assumption.
      * unfold questions_in_flight. rewrite Hi. cbn [inflight set_inflight]. lia.
      * unfold answers_in_flight. rewrite Hi. cbn [inflight set_inflight]. lia.
      * unfold all_options_disabled. now rewrite Hb.
  - destruct (images s !! id) as [im|]; [|discriminate].
    destruct (negb (settled im) && negb (String.eqb (src im) "")); [|discriminate].
    injection Hstep as <-. unfold seq.
    destruct (img_onload_frame id (mark_settled id s)) as (He & Hb & Hi & Hl & Hcq).
    split; [|split; [exact Hcq|exact Hl]].
    eapply dead_end_frame; [exact He|exact Hb|exact Hi|exact Hdead].
  - destruct (images s !! id) as [im|]; [|discriminate].
    destruct (negb (settled im)); [|discriminate].
    injection Hstep as <-. unfold seq.
    destruct (img_onerror_frame id (mark_settled id s)) as (He & Hb & Hi & Hl & Hcq).
    split; [|split; [exact Hcq|exact Hl]].
    eapply dead_end_frame; [exact He|exact Hb|exact Hi|exact Hdead].
  - destruct (images s !! id) as [im|]; [|discriminate].
    destruct (timer im) as [due|]; [|discriminate].
    destruct (due <=? now s)%N; [|discriminate].
    injection Hstep as <-. unfold seq.
    destruct (image_timed_out_frame id (clearTimeout id s)) as (He & Hb & Hi & Hl & Hcq).
    split; [|split; [exact Hcq|exact Hl]].
    eapply dead_end_frame; [exact He|exact Hb|exact Hi|exact Hdead].
  - injection Hstep as <-. auto.
Qed.

Lemma run_dead_end (evs : list Event) :
  forall s s',
    dead_end s -> run browser s evs = Some s' ->
    dead_end s' /\ currentQuestion s' = currentQuestion s /\ isLoading s' = isLoading s.
Proof.
  induction evs as [|e rest IH]; intros s s' Hdead Hrun; cbn [run] in Hrun.
  - injection Hrun as <-. auto.
  - destruct (step browser s e) as [s1|] eqn:Hstep; [|discriminate].
    destruct (step_dead_end _ _ _ Hdead Hstep) as (Hdead1 & Hq1 & Hl1).
    destruct (IH _ _ Hdead1 Hrun) as (Hdead' & Hq' & Hl').
    split; [exact Hdead'|]. split; congruence.
Qed.

End DeadEnd.

Lemma showErrorState_question (s : State) :
  currentQuestion (showErrorState s) = currentQuestion s.
Proof. reflexivity. Qed.

Lemma set_inflight_question (l : list Request) (s : State) :
  currentQuestion (set_inflight l s) = currentQuestion s.
Proof. reflexivity. Qed.

Lemma selectAnswer_question (selectedOption : string) (s : State) :
  currentQuestion (selectAnswer selectedOption s) = currentQuestion s.
Proof. unfold selectAnswer. now destruct (isLoading s). Qed.

(** X9. The quiz cannot go on after a failed submission. On a page whose
    hidden start container is out of reach, take a question cycle from
    an idle page with no question fetch or submission in flight, and let
    its submission fail. Then, whatever events follow, no question fetch
    and no submission is ever in flight again, the next and start
    controls never accept a click, every option stays disabled and the
    current question stays the one that could not be answered: only a
    reload of the page gets the user out. *)
Theorem no_way_on_after_failed_submission
    (browser : Browser) (s : State) (q : Q.t) (k : nat) (o : string)
    (r : Reply A.t) (evs : list Event) (s' : State) :
  hidden_unclickable browser = true ->
  isLoading s = false ->
  questions_in_flight s = 0 ->
  answers_in_flight s = 0 ->
  clickable browser NextControl s = true ->
  Q.options q !! k = Some o ->
  submission_failed r = true ->
  run browser s (question_cycle s q k r ++ evs)%list = Some s' ->
  questions_in_flight s' = 0 /\
  answers_in_flight s' = 0 /\
  clickable browser NextControl s' = false /\
  clickable browser StartControl s' = false /\
  all_options_disabled s' = true /\
  isLoading s' = false /\
  currentQuestion s' = Some (QuestionData q).
Proof.
  intros Hhidden Hidle Hq Ha Hnext Hpick Hfail Hrun.
  rewrite run_app in Hrun. unfold question_cycle in Hrun.
  cbn [run] in Hrun.
  rewrite (cycle_click_next browser s Hnext),
    (cycle_question_arrives browser s q Hidle),
    (cycle_pick browser s q k o Hpick),
    (cycle_submission_settles browser s q o) in Hrun.
  assert (Hlast : answer_settled o r (set_inflight (inflight s) (submitted s q o))
                  = showErrorState (set_inflight (inflight s) (submitted s q o)))
    by (destruct r; [reflexivity|reflexivity|discriminate]).
  rewrite Hlast in Hrun.
  set (s4 := showErrorState (set_inflight (inflight s) (submitted s q o))) in *.
  assert (Hdead : dead_end s4).
  { unfold dead_end. repeat split.
    - exact Hq.
    - exact Ha.
    - change (is_hidden startContainer s4) with (is_hidden startContainer (asked s q)).
      apply question_settled_hides_start.
    - change (all_options_disabled s4) with (all_options_disabled (submitted s q o)).
      apply (cycle_options_disabled_s3 s q o). }
  destruct (run_dead_end browser Hhidden evs _ _ Hdead Hrun)
    as ((Hq' & Ha' & Hn' & Hh' & Hall') & Hcq & Hl).
  split; [exact Hq'|]. split; [exact Ha'|].
  split; [cbn [clickable]; now rewrite Hn'|].
  split; [cbn [clickable]; rewrite Hhidden, Hh'; cbn; now rewrite andb_false_r|].
  split; [exact Hall'|]. split.
  - rewrite Hl. reflexivity.
  - rewrite Hcq. unfold s4, submitted.
    rewrite showErrorState_question, set_inflight_question, selectAnswer_question.
    unfold asked. now rewrite question_settled_question.
Qed.

Lemma no_way_on_after_failed_submission_osaka :
  let s := page_loaded blank_page in
  let s' := answer_settled "Osaka" NotOk
              (set_inflight (inflight s) (submitted s tokyo_question "Osaka")) in
  clickable sample_browser NextControl s' = false /\
  clickable sample_browser StartControl s' = false.
Proof.
  cbv zeta.
  assert (Hrun : run sample_browser (page_loaded blank_page)
                   (question_cycle (page_loaded blank_page) tokyo_question 1 NotOk
                      ++ [])%list
                 = Some (answer_settled "Osaka" NotOk
                           (set_inflight (inflight (page_loaded blank_page))
                              (submitted (page_loaded blank_page) tokyo_question
                                 "Osaka")))).
  { rewrite run_app. unfold question_cycle. cbn [run].
    rewrite (cycle_click_next sample_browser (page_loaded blank_page) eq_refl),
      (cycle_question_arrives sample_browser (page_loaded blank_page)
         tokyo_question eq_refl),
      (cycle_pick sample_browser (page_loaded blank_page) tokyo_question 1 "Osaka"
         eq_refl),
      (cycle_submission_settles sample_browser (page_loaded blank_page)
         tokyo_question "Osaka").
    reflexivity. }
  destruct (no_way_on_after_failed_submission sample_browser
              (page_loaded blank_page) tokyo_question 1 "Osaka" NotOk [] _
              eq_refl eq_refl eq_refl eq_refl eq_refl eq_refl eq_refl Hrun)
    as (_ & _ & Hn & Hs & _).
  exact (conj Hn Hs).
Defined.

Lemma error_path_question (s : State) :
  currentQuestion ((set_isLoading false >>> enableButtons) (showErrorState s))
  = currentQuestion s.
Proof. reflexivity. Qed.

(** X10. No retry after a failed fetch once a question has been shown. On a
    page whose hidden start container is out of reach, let the next
    control be clicked on an idle page whose start container is already
    hidden (a question has been displayed before) and let the question
    fetch fail. Then, whatever events follow, no question fetch or
    submission is ever in flight again: the next control is disabled,
    the start control out of reach, no option can be picked, and the
    current question stays what it was. *)
Theorem no_retry_after_failed_fetch
    (browser : Browser) (s : State) (r : Reply Payload)
    (evs : list Event) (s' : State) :
  hidden_unclickable browser = true ->
  isLoading s = false ->
  questions_in_flight s = 0 ->
  answers_in_flight s = 0 ->
  is_hidden startContainer s = true ->
  clickable browser NextControl s = true ->
  fetch_failed r = true ->
  run browser s
      ([Click NextControl; Settle (List.length (inflight s)) (QuestionReply r)]
         ++ evs)%list = Some s' ->
  questions_in_flight s' = 0 /\
  answers_in_flight s' = 0 /\
  clickable browser NextControl s' = false /\
  clickable browser StartControl s' = false /\
  all_options_disabled s' = true /\
  currentQuestion s' = currentQuestion s.
Proof.
  intros Hhidden Hidle Hq Ha Hstart Hnext Hfail Hrun.
  rewrite run_app in Hrun. cbn [run] in Hrun.
  rewrite (cycle_click_next browser s Hnext) in Hrun.
  destruct (loadNextQuestion_idle s Hidle) as (Hin & Hl & Hb & Hn & Hh).
  cbn [step] in Hrun.
  rewrite Hin, lookup_last_request, delete_last_request in Hrun.
  rewrite failed_fetch_shows_error in Hrun by exact Hfail.
  set (s2 := (set_isLoading false >>> enableButtons)
               (showErrorState (set_inflight (inflight s) (loadNextQuestion s))))
    in *.
  assert (Hb2 : option_buttons s2 = []) by exact Hb.
  assert (Hdead : dead_end s2).
  { unfold dead_end. repeat split.
    - exact Hq.
    - exact Ha.
    - change (is_hidden startContainer s2)
        with (is_hidden startContainer (loadNextQuestion s)).
      now rewrite Hh.
    - unfold all_options_disabled. now rewrite Hb2. }
  destruct (run_dead_end browser Hhidden evs _ _ Hdead Hrun)
    as ((Hq' & Ha' & Hn' & Hh' & Hall') & Hcq & _).
  split; [exact Hq'|]. split; [exact Ha'|].
  split; [cbn [clickable]; now rewrite Hn'|].
  split; [cbn [clickable]; rewrite Hhidden, Hh'; cbn; now rewrite andb_false_r|].
  split; [exact Hall'|].
  rewrite Hcq. unfold s2.
  now rewrite error_path_question, set_inflight_question, loadNextQuestion_question.
Qed.

Lemma no_retry_after_failed_fetch_example :
  let s := answer_settled "Tokyo" (Json (A.mk true "Tokyo" 1 1))
             (set_inflight [GetHistory]
                (submitted (page_loaded blank_page) tokyo_question "Tokyo")) in
  let s' := question_settled NotOk (set_inflight (inflight s) (loadNextQuestion s)) in
  clickable sample_browser NextControl s' = false /\
  clickable sample_browser StartControl s' = false.
Proof.
  cbv zeta.
  set (s := answer_settled "Tokyo" (Json (A.mk true "Tokyo" 1 1))
              (set_inflight [GetHistory]
                 (submitted (page_loaded blank_page) tokyo_question "Tokyo"))).
  assert (Hidle : isLoading s = false) by reflexivity.
  assert (Hq : questions_in_flight s = 0) by (vm_compute; reflexivity).
  assert (Ha : answers_in_flight s = 0) by (vm_compute; reflexivity).
  assert (Hh : is_hidden startContainer s = true) by (vm_compute; reflexivity).
  assert (Hn : clickable sample_browser NextControl s = true)
    by (vm_compute; reflexivity).
  assert (Hrun : run sample_browser s
                   ([Click NextControl;
                     Settle (List.length (inflight s)) (QuestionReply NotOk)]
                      ++ [])%list
                 = Some (question_settled NotOk
                           (set_inflight (inflight s) (loadNextQuestion s)))).
  { cbn [app run]. rewrite (cycle_click_next sample_browser s Hn).
    cbn [step].
    rewrite (proj1 (loadNextQuestion_idle s Hidle)), lookup_last_request,
      delete_last_request.
    reflexivity. }
  destruct (no_retry_after_failed_fetch sample_browser s NotOk [] _
              eq_refl Hidle Hq Ha Hh Hn eq_refl Hrun)
    as (_ & _ & Hnext & Hstart & _).
  exact (conj Hnext Hstart).
Defined.

(** ** The end of an image load *)

Lemma retired_kept_refl (l : list ImageObj) : retired_kept l l.
Proof. intros id im H Hr. eauto. Qed.

Lemma retired_kept_trans (l1 l2 l3 : list ImageObj) :
  retired_kept l1 l2 -> retired_kept l2 l3 -> retired_kept l1 l3.
Proof.
  intros H12 H23 id im H Hr.
  destruct (H12 _ _ H Hr) as (im2 & H2 & Hr2). eauto.
Qed.

Lemma retired_kept_alter (f : ImageObj -> ImageObj) (k : nat) (l : list ImageObj) :
  (forall im, retired im -> retired (f im)) ->
  retired_kept l (alter f k l).
Proof.
  intros Hf id im H Hr. destruct (decide (k = id)) as [->|Hne].
  - exists (f im). rewrite list_lookup_alter_eq, H. auto.
  - exists im. rewrite list_lookup_alter_ne by exact Hne. auto.
Qed.

Lemma retired_kept_app (l extra : list ImageObj) : retired_kept l (l ++ extra)%list.
Proof.
  intros id im H Hr. exists im. split; [|exact Hr]. now apply lookup_app_l_Some.
Qed.

Lemma question_settled_retired (r : Reply Payload) (s : State) :
  retired_kept (images s) (images (question_settled r s)).
Proof.
  unfold question_settled, question_received.
  destruct r as [| |data]; try apply retired_kept_refl.
  destruct (truthy (data_error data)); [apply retired_kept_refl|].
  unfold displayQuestion.
  destruct data as [q|e]; [|apply retired_kept_refl].
  cbn [data_image data_options data_question createOptionButtons].
  set (s0 := set_text questionText (text_of (Some (Q.question q)))
               (set_currentQuestion (Some (QuestionData q)) s)).
  destruct (truthy (Q.image q)) eqn:Hpic; [|apply retired_kept_refl].
  change (retired_kept (images s0) (images (displayImage (Q.image q) s0))).
  unfold displayImage. rewrite Hpic. apply retired_kept_app.
Qed.

Section ImageEnd.
Variable browser : Browser.

Lemma step_retired (s s' : State) (e : Event) :
  step browser s e = Some s' -> retired_kept (images s) (images s').
Proof.
  intros Hstep. destruct e as [c|i r|id0|id0|id0|ms]; cbn [step] in Hstep.
  - destruct (clickable browser c s); [|discriminate].
    injection Hstep as <-. destruct c as [| | |k]; cbn [on_click].
    + unfold startQuiz. destruct (isLoading s); [apply retired_kept_refl|].
      destruct (loadNextQuestion_images s) as [-> _]. apply retired_kept_refl.
    + destruct (loadNextQuestion_images s) as [-> _]. apply retired_kept_refl.
    + unfold showHint.
      destruct (negb (truthy (currentQuestion s ≫= data_hint)));
        apply retired_kept_refl.
    + destruct (option_buttons s !! k); [|apply retired_kept_refl].
      unfold selectAnswer. destruct (isLoading s); apply retired_kept_refl.
  - destruct (inflight s !! i) as [[| sel |]|]; destruct r as [r|r|r];
      try discriminate; injection Hstep as <-.
    + exact (question_settled_retired r (set_inflight (delete i (inflight s)) s)).
    + destruct r; apply retired_kept_refl.
    + destruct r; apply retired_kept_refl.
  - destruct (images s !! id0) as [im|]; [|discriminate].
    destruct (negb (settled im) && negb (String.eqb (src im) "")); [|discriminate].
    injection Hstep as <-. unfold seq. rewrite img_onload_images.
    change (images (mark_settled id0 s))
      with (alter (fun im => mkImage (src im) (className im) true (timer im))
                  id0 (images s)).
    eapply retired_kept_trans; [|apply retired_kept_alter; intros x [H1 H2]; split; auto].
    eapply retired_kept_trans; apply retired_kept_alter; intros x [H1 H2]; split; auto.
  - destruct (images s !! id0) as [im|]; [|discriminate].
    destruct (negb (settled im)); [|discriminate].
    injection Hstep as <-. unfold seq. rewrite img_onerror_images.
    change (images (mark_settled id0 s))
      with (alter (fun im => mkImage (src im) (className im) true (timer im))
                  id0 (images s)).
    eapply retired_kept_trans; apply retired_kept_alter; intros x [H1 H2]; split; auto.
  - destruct (images s !! id0) as [im|]; [|discriminate].
    destruct (timer im) as [due|]; [|discriminate].
    destruct (due <=? now s)%N; [|discriminate].
    injection Hstep as <-. unfold seq, image_timed_out.
    destruct (contains (image_nodes (clearTimeout id0 s)) (ImageLoading id0)).
    + change (retired_kept (images s)
                (alter (fun im => mkImage "" (className im) (settled im) (timer im)) id0
                   (alter (fun im => mkImage (src im) (className im) (settled im) None)
                      id0 (images s)))).
      eapply retired_kept_trans; apply retired_kept_alter; intros x [H1 H2]; split; auto.
    + apply retired_kept_alter; intros x [H1 H2]; split; auto.
  - injection Hstep as <-. apply retired_kept_refl.
Qed.

Lemma retired_stays (id : nat) (evs : list Event) :
  forall s s',
    (exists im, images s !! id = Some im /\ retired im) ->
    run browser s evs = Some s' ->
    exists im', images s' !! id = Some im' /\ retired im'.
Proof.
  induction evs as [|e rest IH]; intros s s' Him Hrun; cbn [run] in Hrun.
  - now injection Hrun as <-.
  - destruct (step browser s e) as [s1|] eqn:Hstep; [|discriminate].
    apply (IH s1 s'); [|exact Hrun].
    destruct Him as (im & Him & Hr). exact (step_retired _ _ _ Hstep _ _ Him Hr).
Qed.

Lemma retired_refuses (s : State) (id : nat) (im : ImageObj) :
  images s !! id = Some im -> retired im ->
  step browser s (ImageLoad id) = None /\
  step browser s (ImageError id) = None /\
  step browser s (TimerDue id) = None.
Proof.
  intros Him [Hs Ht]. cbn [step]. rewrite Him, Hs, Ht. auto.
Qed.

End ImageEnd.

(** X11. An image that arrives in time. When the load event of an image is
    delivered, its spinner is taken out of the image container and the
    image, with class [question-image], is put at the end of it; if the
    container held only the spinner, it then holds only the image. The
    load is over for good: whatever events follow, neither the timeout
    of this load nor a second load or error event of it is delivered. *)
Theorem image_shown_on_load
    (browser : Browser) (s s' : State) (id : nat) :
  step browser s (ImageLoad id) = Some s' ->
  contains (image_nodes s') (ImageLoading id) = false /\
  contains (image_nodes s') (QuestionImage id) = true /\
  (image_nodes s = [ImageLoading id] -> image_nodes s' = [QuestionImage id]) /\
  (className <$> images s' !! id) = Some "question-image" /\
  forall evs s'',
    run browser s' evs = Some s'' ->
    step browser s'' (ImageLoad id) = None /\
    step browser s'' (ImageError id) = None /\
    step browser s'' (TimerDue id) = None.
Proof.
  intros Hstep. cbn [step] in Hstep.
  destruct (images s !! id) as [im|] eqn:Him; [|discriminate].
  destruct (negb (settled im) && negb (String.eqb (src im) "")); [|discriminate].
  injection Hstep as <-. unfold seq.
  assert (Himg : images (img_onload id (mark_settled id s)) !! id
                 = Some (mkImage (src im) "question-image" true None)).
  { rewrite img_onload_images.
    change (images (mark_settled id s))
      with (alter (fun im => mkImage (src im) (className im) true (timer im))
                  id (images s)).
    now rewrite !list_lookup_alter_eq, Him. }
  rewrite img_onload_nodes.
  assert (Hsame : image_nodes (remove_loader id (mark_settled id s))
                  = image_nodes (remove_loader id s)).
  { unfold remove_loader.
    change (image_nodes (mark_settled id s)) with (image_nodes s).
    destruct (contains (image_nodes s) (ImageLoading id)); reflexivity. }
  rewrite Hsame.
  split; [|split; [|split; [|split]]].
  - rewrite contains_app. apply orb_false_iff. split; [|reflexivity].
    destruct (contains (removeChild (QuestionImage id) (image_nodes (remove_loader id s)))
                (ImageLoading id)) eqn:E; [|reflexivity].
    apply contains_removeChild in E. now rewrite remove_loader_gone in E.
  - rewrite contains_app. apply orb_true_iff. right.
    unfold contains. cbn [existsb same_node]. now rewrite Nat.eqb_refl.
  - intros Hnodes. unfold remove_loader. rewrite Hnodes.
    unfold contains, removeChild. cbn [existsb same_node List.filter negb
      set_image_nodes image_nodes].
    rewrite Nat.eqb_refl. reflexivity.
  - now rewrite Himg.
  - intros evs s'' Hrun.
    destruct (retired_stays browser id evs _ _
                (ex_intro _ _ (conj Himg (conj eq_refl eq_refl))) Hrun)
      as (im' & Him' & Hr').
    exact (retired_refuses browser s'' id im' Him' Hr').
Qed.

Lemma image_shown_on_load_nairobi :
  let s := question_settled (Json (QuestionData pictured_question))
             (loadNextQuestion (page_loaded blank_page)) in
  image_nodes s = [ImageLoading 0] /\
  image_nodes (img_onload 0 (mark_settled 0 s)) = [QuestionImage 0].
Proof.
  cbv zeta.
  set (s := question_settled (Json (QuestionData pictured_question))
              (loadNextQuestion (page_loaded blank_page))).
  assert (Him : images s !! 0
                = Some (mkImage "/static/images/nairobi.jpg" "" false (Some 5000%N)))
    by (vm_compute; reflexivity).
  assert (Hnodes : image_nodes s = [ImageLoading 0]) by (vm_compute; reflexivity).
  assert (Hstep : step sample_browser s (ImageLoad 0)
                  = Some (img_onload 0 (mark_settled 0 s))).
  { cbn [step]. rewrite Him. reflexivity. }
  destruct (image_shown_on_load sample_browser s _ 0 Hstep) as (_ & _ & Hshown & _).
  split; [exact Hnodes|exact (Hshown Hnodes)].
Defined.

(** ** A payload that is no question *)

(** X12. An error field that is empty. When [/get_question] answers with an
    object whose [error] is the empty string, the test of the field does
    not fire and the object is taken for a question: it becomes the
    current question, the question text is emptied, the placeholder is
    shown, the options are cleared and, the object having no options,
    the display fails, so that the generic error is shown. The hint
    handler then finds no hint: it is a no-op. *)
Theorem empty_error_replaces_question (s : State) :
  let s' := question_settled (Json (ErrorObject "")) s in
  fetch_failed (Json (ErrorObject "")) = false /\
  currentQuestion s' = Some (ErrorObject "") /\
  text questionText s' = "" /\
  option_buttons s' = [] /\
  image_nodes s' = [ImagePlaceholder] /\
  text resultText s' = error_message /\
  is_hidden resultContainer s' = false /\
  is_hidden startContainer s' = is_hidden startContainer s /\
  is_disabled nextButton s' = true /\
  isLoading s' = false /\
  showHint s' = s'.
Proof.
  cbv zeta.
  split; [reflexivity|]. split; [reflexivity|]. split; [reflexivity|].
  split; [reflexivity|]. split; [reflexivity|]. split; [reflexivity|].
  split; [apply has_class_remove|]. split; [reflexivity|].
  split; [reflexivity|]. split; [reflexivity|].
  apply showHint_without_hint. reflexivity.
Qed.

(** ** A late image *)

Lemma contains_removeChild_other (m n : Node) (l : list Node) :
  same_node m n = false ->
  contains l n = true -> contains (removeChild m l) n = true.
Proof.
  intros Hmn. unfold contains, removeChild. rewrite !existsb_exists.
  intros (x & Hin & Hx). exists x. split; [|exact Hx].
  apply List.filter_In. split; [exact Hin|].
  apply same_node_eq in Hx. subst x. now rewrite Hmn.
Qed.

(** X13. The load handler does not look at what the container holds.
    When the load event of an image is delivered, every node of the
    image container other than the spinner of that load stays where it
    is and the image is added after them: an image that arrives after
    the page has moved on is shown together with the placeholder,
    spinner or image of the question now on display. *)
Theorem late_image_joins_container
    (browser : Browser) (s s' : State) (id : nat) (n : Node) :
  step browser s (ImageLoad id) = Some s' ->
  n <> ImageLoading id ->
  contains (image_nodes s) n = true ->
  contains (image_nodes s') n = true /\
  contains (image_nodes s') (QuestionImage id) = true.
Proof.
  intros Hstep Hn Hin. cbn [step] in Hstep.
  destruct (images s !! id) as [im|]; [|discriminate].
  destruct (negb (settled im) && negb (String.eqb (src im) "")); [|discriminate].
  injection Hstep as <-. unfold seq. rewrite img_onload_nodes, !contains_app.
  assert (Hloader : same_node (ImageLoading id) n = false).
  { destruct (same_node (ImageLoading id) n) eqn:E; [|reflexivity].
    apply same_node_eq in E. congruence. }
  assert (Hkept : contains (image_nodes (remove_loader id (mark_settled id s))) n = true).
  { unfold remove_loader.
    change (image_nodes (mark_settled id s)) with (image_nodes s).
    destruct (contains (image_nodes s) (ImageLoading id)); [|exact Hin].
    now apply contains_removeChild_other. }
  split.
  - apply orb_true_iff.
    destruct (same_node (QuestionImage id) n) eqn:E.
    + right. apply same_node_eq in E. subst n.
      unfold contains. cbn [existsb same_node]. now rewrite Nat.eqb_refl.
    + left. now apply contains_removeChild_other.
  - apply orb_true_iff. right.
    unfold contains. cbn [existsb same_node]. now rewrite Nat.eqb_refl.
Qed.

Lemma late_image_joins_container_example :
  let s := set_image_nodes [ImagePlaceholder]
             (question_settled (Json (QuestionData pictured_question))
                (loadNextQuestion (page_loaded blank_page))) in
  contains (image_nodes (img_onload 0 (mark_settled 0 s))) ImagePlaceholder = true /\
  contains (image_nodes (img_onload 0 (mark_settled 0 s))) (QuestionImage 0) = true.
Proof.
  cbv zeta.
  set (s := set_image_nodes [ImagePlaceholder]
              (question_settled (Json (QuestionData pictured_question))
                 (loadNextQuestion (page_loaded blank_page)))).
  assert (Him : images s !! 0
                = Some (mkImage "/static/images/nairobi.jpg" "" false (Some 5000%N)))
    by (vm_compute; reflexivity).
  assert (Hstep : step sample_browser s (ImageLoad 0)
                  = Some (img_onload 0 (mark_settled 0 s))).
  { cbn [step]. rewrite Him. reflexivity. }
  apply (late_image_joins_container sample_browser s _ 0 ImagePlaceholder Hstep);
    [discriminate|reflexivity].
Defined.
